(** * CommercePulse: event normalisation, daily aggregation and quality checks

    A shallow embedding of [src/transformer.py] and [src/quality_report.py].

    Conventions of the model.
    - A payload is a JSON object whose values are scalars
      ([None], booleans, numbers, strings): a [gmap string pyval].
    - A finite Python float is an exact rational ([Q]); rounding errors of
      binary floating point, NaN and the infinities are outside the model.
    - A pandas timestamp is a number of nanoseconds since the epoch (UTC),
      a calendar date a number of days since the epoch; [None] is NaT.
    - [float] applied to a string and [pd.to_datetime] are library
      functions: they are taken as operations of the class [Coercions].
    - [sort_values] is modelled as a stable sort.
    - A [DataFrame] is a list of column names and a list of typed rows;
      row labels (the index) are not modelled. *)

From Stdlib Require Import ZArith QArith Qround List String Ascii Bool Lia.
From Stdlib Require Import Sorted OrderedTypeEx.
From stdpp Require Import base option gmap strings pretty.
Import ListNotations.
Open Scope string_scope.
Open Scope list_scope.

(** ** Python values and builtins *)

Module Py.

Inductive pyval : Type :=
  | VNone
  | VBool (b : bool)
  | VNum (q : Q)
  | VStr (s : string).

Inductive exn : Type :=
  | KeyError (k : string)
  | TypeError
  | ValueError
  | AttributeError.

(** A computation that returns a value or raises. *)
Inductive result (A : Type) : Type :=
  | Ok (a : A)
  | Raise (e : exn).
Arguments Ok {A} a.
Arguments Raise {A} e.

#[export] Instance result_ret : MRet result := @Ok.
#[export] Instance result_bind : MBind result := fun A B f m =>
  match m with
  | Ok a => f a
  | Raise e => Raise e
  end.

(** The loop [for x in xs: rows.append(f(x))]: stops at the first raise. *)
Fixpoint mapM {A B : Type} (f : A -> result B) (xs : list A) : result (list B) :=
  match xs with
  | [] => Ok []
  | x :: xs' => y ← f x; ys ← mapM f xs'; Ok (y :: ys)
  end.

(** Truth value of a scalar: [None], [False], [0] and the empty string are
    falsy. *)
Definition truthy (v : pyval) : bool :=
  match v with
  | VNone => false
  | VBool b => b
  | VNum q => negb (Qeq_bool q 0)
  | VStr s => negb (String.eqb s "")
  end.

(** [a or b] *)
Definition py_or (a b : pyval) : pyval := if truthy a then a else b.
Notation "a <or> b" := (py_or a b) (at level 50, left associativity).

(** Numeric value of a number or a boolean ([True == 1]). *)
Definition num_of (v : pyval) : option Q :=
  match v with
  | VBool b => Some (if b then 1 else 0)%Q
  | VNum q => Some q
  | _ => None
  end.

(** [a == b] on scalars, as used by [isin], [drop_duplicates] and [merge],
    which also treat two missing values as equal. *)
Definition py_eqb (a b : pyval) : bool :=
  match a, b with
  | VNone, VNone => true
  | VStr s, VStr t => String.eqb s t
  | _, _ =>
      match num_of a, num_of b with
      | Some x, Some y => Qeq_bool x y
      | _, _ => false
      end
  end.

(** [x in xs] for a list of strings. *)
Definition str_in (x : string) (xs : list string) : bool :=
  existsb (String.eqb x) xs.

Definition lower_ascii (c : ascii) : ascii :=
  let n := nat_of_ascii c in
  if (65 <=? n)%nat && (n <=? 90)%nat then ascii_of_nat (n + 32) else c.

(** [s.lower()] on the ASCII letters; other bytes are kept. *)
Fixpoint lower (s : string) : string :=
  match s with
  | EmptyString => EmptyString
  | String c s' => String (lower_ascii c) (lower s')
  end.

(** [d.get(k)] and [d.get(k, dflt)] *)
Definition get (d : gmap string pyval) (k : string) : pyval :=
  default VNone (d !! k).
Definition get_default (d : gmap string pyval) (k : string) (dflt : pyval) : pyval :=
  default dflt (d !! k).

(** [round(x)] to the nearest integer, ties to even. *)
Definition round_half_even (q : Q) : Z :=
  let f := Qfloor q in
  match Qcompare (q - inject_Z f) (1 # 2) with
  | Lt => f
  | Gt => (f + 1)%Z
  | Eq => if Z.even f then f else (f + 1)%Z
  end.

(** [round(x, ndigits)] *)
Definition round (q : Q) (ndigits : nat) : Q :=
  let p := (10 ^ Z.of_nat ndigits)%Z in
  Qred (inject_Z (round_half_even (q * inject_Z p)) / inject_Z p).

(** [xs.sum()] *)
Definition series_sum (xs : list Q) : Q := fold_right Qplus 0%Q xs.

(** [len(xs)] *)
Definition len {A : Type} (xs : list A) : Z := Z.of_nat (List.length xs).

(** [mask.sum()]: the number of true entries. *)
Definition count_true {A : Type} (p : A -> bool) (xs : list A) : Z :=
  len (List.filter p xs).

(** [a < b] on numbers. *)
Definition Qlt_bool (a b : Q) : bool := negb (Qle_bool b a).

(** The two library conversions whose input language is not fixed by this
    repository: the value of a numeric string, and timestamp parsing with
    [errors="coerce"] ([None] is NaT, a timestamp is in nanoseconds). *)
Class Coercions : Type := {
  float_of_str : string -> option Q;
  to_datetime : pyval -> option Z
}.

(** [float(v)] *)
Definition float `{Coercions} (v : pyval) : result Q :=
  match v with
  | VNone => Raise TypeError
  | VBool b => Ok (if b then 1 else 0)%Q
  | VNum q => Ok q
  | VStr s =>
      match float_of_str s with
      | Some q => Ok q
      | None => Raise ValueError
      end
  end.

End Py.
Export Py.

(** ** Data frames *)

Module Frame.

(** A table: the column labels in order, the rows of the columns the table
    was built with, and the date columns assigned to it afterwards
    ([df[name] = values]), one value per row. *)
Record DataFrame (R : Type) : Type := mkDataFrame {
  columns : list string;
  rows : list R;
  assigned : list (string * list (option Z))
}.
Arguments mkDataFrame {R} columns rows assigned.
Arguments columns {R} d.
Arguments rows {R} d.
Arguments assigned {R} d.

(** [pd.DataFrame()]: no rows and no columns. *)
Definition empty_frame {R : Type} : DataFrame R := mkDataFrame [] [] [].

(** [pd.DataFrame(records)] for a list of dicts that all have the keys
    [keys]; an empty list gives the frame without columns. *)
Definition from_records {R : Type} (keys : list string) (records : list R) : DataFrame R :=
  match records with
  | [] => empty_frame
  | _ => mkDataFrame keys records []
  end.

(** [df.empty]: some axis has length zero. *)
Definition df_empty {R : Type} (df : DataFrame R) : bool :=
  match rows df, columns df with
  | [], _ => true
  | _, [] => true
  | _, _ => false
  end.

(** [len(df)] *)
Definition df_len {R : Type} (df : DataFrame R) : Z := len (rows df).

(** [df[c]] for a column the rows carry, read through its field [f]. *)
Definition col {R A : Type} (c : string) (f : R -> A) (df : DataFrame R) : result (list A) :=
  if str_in c (columns df) then Ok (map f (rows df)) else Raise (KeyError c).

(** [df[c] = values]: replaces the column, or appends it after the others. *)
Definition set_col {R : Type} (c : string) (values : list (option Z)) (df : DataFrame R) : DataFrame R :=
  mkDataFrame
    (if str_in c (columns df) then columns df else columns df ++ [c])
    (rows df)
    ((c, values) :: List.filter (fun cv => negb (String.eqb (fst cv) c)) (assigned df)).

(** Order of timestamps with [na_position="first"]. *)
Definition na_first_leb (a b : option Z) : bool :=
  match a, b with
  | None, _ => true
  | Some _, None => false
  | Some x, Some y => (x <=? y)%Z
  end.

Fixpoint insert_by {R : Type} (key : R -> option Z) (x : R) (s : list R) : list R :=
  match s with
  | [] => [x]
  | y :: s' =>
      if na_first_leb (key x) (key y) then x :: y :: s' else y :: insert_by key x s'
  end.

(** [sort_values(by, na_position="first")] on the rows: ascending, missing
    values first, rows with equal keys in their input order. *)
Fixpoint sort_values {R : Type} (key : R -> option Z) (l : list R) : list R :=
  match l with
  | [] => []
  | x :: l' => insert_by key x (sort_values key l')
  end.

(** [drop_duplicates(subset=[k], keep="last")] on the rows. *)
Fixpoint drop_duplicates_last {R : Type} (key : R -> pyval) (l : list R) : list R :=
  match l with
  | [] => []
  | x :: l' =>
      if existsb (fun y => py_eqb (key x) (key y)) l'
      then drop_duplicates_last key l'
      else x :: drop_duplicates_last key l'
  end.

Fixpoint drop_duplicates_from {R : Type} (key : R -> pyval) (seen : list pyval) (l : list R) : list R :=
  match l with
  | [] => []
  | x :: l' =>
      if existsb (py_eqb (key x)) seen
      then drop_duplicates_from key seen l'
      else x :: drop_duplicates_from key (key x :: seen) l'
  end.

(** [drop_duplicates(subset=[k])] on the rows: the first row of each key. *)
Definition drop_duplicates {R : Type} (key : R -> pyval) (l : list R) : list R :=
  drop_duplicates_from key [] l.

(** A row-wise operation applied to a frame. *)
Definition on_rows {R : Type} (f : list R -> list R) (df : DataFrame R) : DataFrame R :=
  mkDataFrame (columns df) (f (rows df)) (assigned df).

Fixpoint mask_filter {A : Type} (mask : list bool) (l : list A) : list A :=
  match mask, l with
  | b :: mask', x :: l' =>
      if b then x :: mask_filter mask' l' else mask_filter mask' l'
  | _, _ => []
  end.

(** [df[mask]]: the rows where the mask holds, with the same columns. *)
Definition select {R : Type} (mask : list bool) (df : DataFrame R) : DataFrame R :=
  mkDataFrame (columns df) (mask_filter mask (rows df))
    (map (fun cv => (fst cv, mask_filter mask (snd cv))) (assigned df)).

(** [series.isin(values)] for one cell. *)
Definition isin (v : pyval) (values : list pyval) : bool :=
  existsb (py_eqb v) values.

(** [series.isna()] for one cell. *)
Definition isna (v : pyval) : bool :=
  match v with
  | VNone => true
  | _ => false
  end.

Definition ns_per_day : Z := 86400000000000.

(** [series.dt.date] for one cell. *)
Definition dt_date (t : option Z) : option Z :=
  match t with
  | Some ns => Some (ns / ns_per_day)%Z
  | None => None
  end.

End Frame.
Export Frame.

(** ** transformer.py *)

Record event : Type := mkEvent {
  ev_event_id : option string;
  ev_event_type : option string;
  ev_vendor : option string;
  ev_payload : gmap string pyval
}.

Record order_row : Type := mkOrder {
  o_order_id : pyval;
  o_customer_id : pyval;
  o_order_amount : Q;
  o_order_status : pyval;
  o_created_at : option Z;
  o_event_id : option string;
  o_vendor : option string;
  o_event_type : option string
}.

Record payment_row : Type := mkPayment {
  p_payment_id : pyval;
  p_order_id : pyval;
  p_payment_amount : Q;
  p_payment_status : pyval;
  p_payment_method : pyval;
  p_payment_date : option Z;
  p_event_id : option string;
  p_vendor : option string
}.

Record refund_row : Type := mkRefund {
  r_refund_id : pyval;
  r_order_id : pyval;
  r_payment_id : pyval;
  r_refund_amount : Q;
  r_refund_reason : pyval;
  r_refund_type : pyval;
  r_refund_date : option Z;
  r_event_id : option string;
  r_vendor : option string
}.

Definition order_columns : list string :=
  ["order_id"; "customer_id"; "order_amount"; "order_status"; "created_at";
   "event_id"; "vendor"; "event_type"].

Definition payment_columns : list string :=
  ["payment_id"; "order_id"; "payment_amount"; "payment_status";
   "payment_method"; "payment_date"; "event_id"; "vendor"].

Definition refund_columns : list string :=
  ["refund_id"; "order_id"; "payment_id"; "refund_amount"; "refund_reason";
   "refund_type"; "refund_date"; "event_id"; "vendor"].

Section Normalizers.

Context `{Coercions}.

(** The dict appended for one order event (lines 26-37). *)
Definition order_record (e : event) : result order_row :=
  let payload := ev_payload e in
  order_amount ← float (get_default payload "totalAmount" (VNum 0));
  Ok {| o_order_id := get payload "order_id";
        o_customer_id := get payload "customerId";
        o_order_amount := order_amount;
        o_order_status := get payload "state";
        o_created_at := to_datetime (get payload "created_at");
        o_event_id := ev_event_id e;
        o_vendor := ev_vendor e;
        o_event_type := ev_event_type e |}.

Definition normalize_orders (events : list event) : result (DataFrame order_row) :=
  match events with
  | [] => Ok empty_frame
  | _ =>
      rows ← mapM order_record events;
      let df := from_records order_columns rows in
      let df := on_rows (sort_values o_created_at) df in
      let df := on_rows (drop_duplicates_last o_order_id) df in
      Ok df
  end.

(** [float(amount) if amount else 0.0] *)
Definition amount_or_zero (amount : pyval) : result Q :=
  if truthy amount then float amount else Ok 0%Q.

(** Lines 66-71: the status vocabulary. *)
Definition canonical_status (status : pyval) : result pyval :=
  if truthy status then
    match status with
    | VStr s =>
        let s := lower s in
        if str_in s ["failed"; "fail"; "error"] then Ok (VStr "failed")
        else if str_in s ["success"; "successful"; "completed"; "paid"] then Ok (VStr "success")
        else Ok (VStr s)
    | _ => Raise AttributeError
    end
  else Ok status.

(** The fallback chains of the payment fields (lines 52-74). *)
Definition payment_id_field (payload : gmap string pyval) : pyval :=
  get payload "transaction_id" <or> get payload "payment_id"
  <or> get payload "id" <or> get payload "paymentId".
Definition order_id_field (payload : gmap string pyval) : pyval :=
  get payload "order_id" <or> get payload "orderId".
Definition payment_amount_field (payload : gmap string pyval) : pyval :=
  get payload "amountPaid" <or> get payload "amount"
  <or> get payload "payment_amount" <or> get payload "totalAmount".
Definition payment_status_field (payload : gmap string pyval) : pyval :=
  get payload "payment_status" <or> get payload "status" <or> get payload "state".
Definition payment_method_field (payload : gmap string pyval) : pyval :=
  get payload "channel" <or> get payload "method" <or> get payload "payment_method".
Definition payment_date_field (payload : gmap string pyval) : pyval :=
  get payload "paid_at" <or> get payload "payment_date" <or> get payload "created_at".

(** The dict appended for one payment event (lines 50-85). *)
Definition payment_record (e : event) : result payment_row :=
  let payload := ev_payload e in
  let payment_id := payment_id_field payload in
  let order_id := order_id_field payload in
  let amount := payment_amount_field payload in
  status ← canonical_status (payment_status_field payload);
  let method := payment_method_field payload in
  let date := payment_date_field payload in
  payment_amount ← amount_or_zero amount;
  Ok {| p_payment_id := payment_id;
        p_order_id := order_id;
        p_payment_amount := payment_amount;
        p_payment_status := status;
        p_payment_method := method;
        p_payment_date := to_datetime date;
        p_event_id := ev_event_id e;
        p_vendor := ev_vendor e |}.

Definition normalize_payments (events : list event) : result (DataFrame payment_row) :=
  match events with
  | [] => Ok empty_frame
  | _ =>
      rows ← mapM payment_record events;
      let df := from_records payment_columns rows in
      let df := on_rows (drop_duplicates p_payment_id) df in
      Ok df
  end.

(** The fallback chains of the refund fields (lines 100-111). *)
Definition refund_id_field (payload : gmap string pyval) : pyval :=
  get payload "refund_id" <or> get payload "id" <or> get payload "transaction_id".
Definition refund_payment_id_field (payload : gmap string pyval) : pyval :=
  get payload "payment_id" <or> get payload "paymentId" <or> get payload "transaction_id".
Definition refund_amount_field (payload : gmap string pyval) : pyval :=
  get payload "amountRefunded" <or> get payload "amount"
  <or> get payload "refund_amount" <or> get payload "totalAmount".
Definition refund_reason_field (payload : gmap string pyval) : pyval :=
  get payload "reason" <or> get payload "refund_reason".
Definition refund_type_field (payload : gmap string pyval) : pyval :=
  get payload "type" <or> get payload "refund_type".
Definition refund_date_field (payload : gmap string pyval) : pyval :=
  get payload "refunded_at" <or> get payload "refund_date" <or> get payload "created_at".

(** The dict appended for one refund event (lines 98-123). *)
Definition refund_record (e : event) : result refund_row :=
  let payload := ev_payload e in
  let refund_id := refund_id_field payload in
  let order_id := order_id_field payload in
  let payment_id := refund_payment_id_field payload in
  let amount := refund_amount_field payload in
  let reason := refund_reason_field payload in
  let refund_type := refund_type_field payload in
  let date := refund_date_field payload in
  refund_amount ← amount_or_zero amount;
  Ok {| r_refund_id := refund_id;
        r_order_id := order_id;
        r_payment_id := payment_id;
        r_refund_amount := refund_amount;
        r_refund_reason := reason;
        r_refund_type := refund_type;
        r_refund_date := to_datetime date;
        r_event_id := ev_event_id e;
        r_vendor := ev_vendor e |}.

Definition normalize_refunds (events : list event) : result (DataFrame refund_row) :=
  match events with
  | [] => Ok empty_frame
  | _ =>
      rows ← mapM refund_record events;
      let df := from_records refund_columns rows in
      let df := on_rows (drop_duplicates r_refund_id) df in
      Ok df
  end.

End Normalizers.

(** The three canonical tables that the aggregator and the checker are
    handed: Python passes the frames by reference, so an assignment to a
    column of a frame is a write to this store. *)
Record tables : Type := mkTables {
  orders_df : DataFrame order_row;
  payments_df : DataFrame payment_row;
  refunds_df : DataFrame refund_row
}.

(** Computations over the store that may raise; a raise keeps the writes
    made before it. *)
Definition M (A : Type) : Type := tables -> tables * result A.

#[export] Instance M_ret : MRet M := fun A a st => (st, Ok a).
#[export] Instance M_bind : MBind M := fun A B f m st =>
  match m st with
  | (st', Ok a) => f a st'
  | (st', Raise e) => (st', Raise e)
  end.

Definition lift {A : Type} (r : result A) : M A := fun st => (st, r).
Definition gets {A : Type} (f : tables -> A) : M A := fun st => (st, Ok (f st)).
Definition put_orders (df : DataFrame order_row) : M unit := fun st =>
  (mkTables df (payments_df st) (refunds_df st), Ok tt).

Fixpoint forM {A B : Type} (f : A -> M B) (xs : list A) : M (list B) :=
  match xs with
  | [] => mret []
  | x :: xs' => y ← f x; ys ← forM f xs'; mret (y :: ys)
  end.

Record daily_row : Type := mkDaily {
  d_order_date : Z;
  d_vendor : string;
  d_gross_revenue : Q;
  d_total_refunds : Q;
  d_net_revenue : Q;
  d_order_count : Z;
  d_paid_count : Z;
  d_payment_success_rate : option Q;
  d_refund_rate : option Q
}.

Definition daily_columns : list string :=
  ["order_date"; "vendor"; "gross_revenue"; "total_refunds"; "net_revenue";
   "order_count"; "paid_count"; "payment_success_rate"; "refund_rate"].

(** *** groupby(["order_date", "vendor"]) *)

Definition group_key : Type := (Z * string)%type.

Definition key_compare (a b : group_key) : comparison :=
  match Z.compare (fst a) (fst b) with
  | Eq => String.compare (snd a) (snd b)
  | c => c
  end.

Definition key_eqb (a b : group_key) : bool :=
  Z.eqb (fst a) (fst b) && String.eqb (snd a) (snd b).

(** The key of a row; a row with a missing date or vendor has none and is
    dropped by [groupby] ([dropna=True]). *)
Definition row_key (date : option Z) (vendor : option string) : option group_key :=
  match date, vendor with
  | Some d, Some v => Some (d, v)
  | _, _ => None
  end.

Fixpoint insert_key (k : group_key) (s : list group_key) : list group_key :=
  match s with
  | [] => [k]
  | k' :: s' =>
      match key_compare k k' with
      | Lt => k :: s
      | Eq => s
      | Gt => k' :: insert_key k s'
      end
  end.

(** The distinct keys, in increasing order ([sort=True]). *)
Definition group_keys (keys : list (option group_key)) : list group_key :=
  fold_right (fun ok acc => match ok with Some k => insert_key k acc | None => acc end) [] keys.

Definition has_key (k : group_key) (ok : option group_key) : bool :=
  match ok with
  | Some k' => key_eqb k k'
  | None => false
  end.

(** The groups of a frame, each with its key, in key order. *)
Definition groupby {R : Type} (keys : list (option group_key)) (df : DataFrame R) : list (group_key * DataFrame R) :=
  map (fun k => (k, select (map (has_key k) keys) df)) (group_keys keys).

(** [round(paid_count / order_count, 4) if order_count > 0 else None] *)
Definition success_rate (paid_count order_count : Z) : option Q :=
  if (0 <? order_count)%Z
  then Some (round (inject_Z paid_count / inject_Z order_count) 4)
  else None.

(** [round(total_refunds / gross_revenue, 4) if gross_revenue > 0 else None] *)
Definition refund_rate_of (total_refunds gross_revenue : Q) : option Q :=
  if Qlt_bool 0 gross_revenue
  then Some (round (total_refunds / gross_revenue) 4)
  else None.

(** The body of the loop over the groups (lines 138-163). *)
Definition aggregate_group (g : group_key * DataFrame order_row) : M daily_row :=
  let '((date, vendor), group) := g in
  order_ids ← lift (col "order_id" o_order_id group);
  payments ← gets payments_df;
  p_order_id ← lift (col "order_id" p_order_id payments);
  let payments_subset := select (map (fun v => isin v order_ids) p_order_id) payments in
  amounts ← lift (col "payment_amount" p_payment_amount payments_subset);
  let gross_revenue := series_sum amounts in
  statuses ← lift (col "payment_status" p_payment_status payments_subset);
  let paid_count := count_true (fun s => py_eqb s (VStr "success")) statuses in
  refunds ← gets refunds_df;
  r_order_id ← lift (col "order_id" r_order_id refunds);
  let refunds_subset := select (map (fun v => isin v order_ids) r_order_id) refunds in
  r_amounts ← lift (col "refund_amount" r_refund_amount refunds_subset);
  let total_refunds := series_sum r_amounts in
  let net_revenue := (gross_revenue - total_refunds)%Q in
  let order_count := len order_ids in
  let payment_success_rate := success_rate paid_count order_count in
  let refund_rate := refund_rate_of total_refunds gross_revenue in
  mret {| d_order_date := date;
          d_vendor := vendor;
          d_gross_revenue := Qred gross_revenue;   (* float(...): same value, *)
          d_total_refunds := Qred total_refunds;   (* kept in lowest terms *)
          d_net_revenue := Qred net_revenue;
          d_order_count := order_count;
          d_paid_count := paid_count;
          d_payment_success_rate := payment_success_rate;
          d_refund_rate := refund_rate |}.

Definition build_fact_order_daily : M (DataFrame daily_row) :=
  orders ← gets orders_df;
  if df_empty orders then mret empty_frame
  else
    created_at ← lift (col "created_at" o_created_at orders);
    let order_date := map dt_date created_at in
    _ ← put_orders (set_col "order_date" order_date orders);
    orders ← gets orders_df;
    vendor ← lift (col "vendor" o_vendor orders);
    let keys := map (fun dv => row_key (fst dv) (snd dv)) (combine order_date vendor) in
    results ← forM aggregate_group (groupby keys orders);
    mret (from_records daily_columns results).

(** ** quality_report.py *)

Record report : Type := mkReport {
  q_total_orders : Z;
  q_total_payments : Z;
  q_total_refunds : Z;
  q_orders_missing_customer_id : Z;
  q_orders_missing_amount : Z;
  q_payments_missing_order_id : Z;
  q_refunds_missing_payment_id : Z;
  q_orphan_payments : Z;
  q_orphan_refunds : Z;
  q_payments_over_7_days : Z;
  q_payments_over_30_days : Z;
  q_avg_days_to_payment : option Q;
  q_gross_revenue : Q;
  q_total_refunded : Q;
  q_net_revenue : Q;
  q_payment_success_rate : Q;
  q_refund_rate : Q
}.

(** [a.merge(b, on=key, how="inner")] on (key, value) pairs: the values of
    every pair of rows with equal keys. *)
Definition merge_inner {A B : Type} (left : list (pyval * A)) (right : list (pyval * B)) : list (A * B) :=
  flat_map (fun l =>
    flat_map (fun r => if py_eqb (fst l) (fst r) then [(snd l, snd r)] else []) right) left.

(** [(payment_date - created_at).dt.total_seconds() / 86400]; a missing
    timestamp gives a missing value. *)
Definition days_between (created_at payment_date : option Z) : option Q :=
  match created_at, payment_date with
  | Some c, Some p => Some (inject_Z (p - c) / inject_Z 1000000000 / inject_Z 86400)%Q
  | _, _ => None
  end.

(** [(series > bound).sum()]; a missing value compares false. *)
Definition count_over (bound : Q) (xs : list (option Q)) : Z :=
  count_true (fun x => match x with Some v => Qlt_bool bound v | None => false end) xs.

(** [series.mean()], which skips missing values; [None] is NaN. *)
Definition mean (xs : list (option Q)) : option Q :=
  match omap id xs with
  | [] => None
  | vs => Some (series_sum vs / inject_Z (len vs))%Q
  end.

(** Lines 34-144 of [run_quality_report]: the statistics read from the
    three frames.  The printed lines and the report date are left out. *)
Definition quality_checks : M report :=
  orders ← gets orders_df;
  payments ← gets payments_df;
  refunds ← gets refunds_df;
  let total_orders := df_len orders in
  let total_payments := df_len payments in
  let total_refunds := df_len refunds in
  (* 1. completeness *)
  customer_id ← lift (col "customer_id" o_customer_id orders);
  order_amount ← lift (col "order_amount" o_order_amount orders);
  pay_order_id ← lift (col "order_id" p_order_id payments);
  ref_payment_id ← lift (col "payment_id" r_payment_id refunds);
  let orders_missing_customer_id := count_true isna customer_id in
  let orders_missing_amount := count_true (fun a => Qeq_bool a 0) order_amount in
  let payments_missing_order_id := count_true isna pay_order_id in
  let refunds_missing_payment_id := count_true isna ref_payment_id in
  (* 2. orphans *)
  ord_order_id ← lift (col "order_id" o_order_id orders);
  let orphan_payments := count_true (fun v => negb (isin v ord_order_id)) pay_order_id in
  pay_payment_id ← lift (col "payment_id" p_payment_id payments);
  let orphan_refunds := count_true (fun v => negb (isin v pay_payment_id)) ref_payment_id in
  (* 3. late arrivals *)
  created_at ← lift (col "created_at" o_created_at orders);
  payment_date ← lift (col "payment_date" p_payment_date payments);
  let merged := merge_inner (combine ord_order_id created_at) (combine pay_order_id payment_date) in
  let days_to_payment := map (fun cp => days_between (fst cp) (snd cp)) merged in
  let late :=
    match merged with
    | [] => (0%Z, 0%Z, Some 0%Q)
    | _ => (count_over 7 days_to_payment,
            count_over 30 days_to_payment,
            option_map (fun m => round m 2) (mean days_to_payment))
    end in
  (* 4. revenue integrity *)
  payment_status ← lift (col "payment_status" p_payment_status payments);
  let successful_payments :=
    select (map (fun s => py_eqb s (VStr "success")) payment_status) payments in
  amounts ← lift (col "payment_amount" p_payment_amount successful_payments);
  let gross_revenue := round (series_sum amounts) 2 in
  refund_amount ← lift (col "refund_amount" r_refund_amount refunds);
  let total_refunded := round (series_sum refund_amount) 2 in
  let net_revenue := round (gross_revenue - total_refunded) 2 in
  let successful_count := df_len successful_payments in
  let payment_success_rate :=
    if (0 <? total_payments)%Z
    then round (inject_Z successful_count / inject_Z total_payments) 4
    else 0%Q in
  let refund_rate :=
    if Qlt_bool 0 gross_revenue
    then round (total_refunded / gross_revenue) 4
    else 0%Q in
  (* 6. vendor breakdown *)
  _ ← lift (col "vendor" o_vendor orders);
  mret {| q_total_orders := total_orders;
          q_total_payments := total_payments;
          q_total_refunds := total_refunds;
          q_orders_missing_customer_id := orders_missing_customer_id;
          q_orders_missing_amount := orders_missing_amount;
          q_payments_missing_order_id := payments_missing_order_id;
          q_refunds_missing_payment_id := refunds_missing_payment_id;
          q_orphan_payments := orphan_payments;
          q_orphan_refunds := orphan_refunds;
          q_payments_over_7_days := fst (fst late);
          q_payments_over_30_days := snd (fst late);
          q_avg_days_to_payment := snd late;
          q_gross_revenue := gross_revenue;
          q_total_refunded := total_refunded;
          q_net_revenue := net_revenue;
          q_payment_success_rate := payment_success_rate;
          q_refund_rate := refund_rate |}.

(** [run_quality_report], on the events that the three [fetch_events]
    queries return: the frames it normalizes are its own, so the store
    after the checks is returned with the report. *)
Definition run_quality_report `{Coercions} (raw_orders raw_payments raw_refunds : list event) : result (tables * report) :=
  orders ← normalize_orders raw_orders;
  payments ← normalize_payments raw_payments;
  refunds ← normalize_refunds raw_refunds;
  match quality_checks (mkTables orders payments refunds) with
  | (st, Ok r) => Ok (st, r)
  | (_, Raise e) => Raise e
  end.

(** [run_transformation] up to the aggregates (lines 196-208). *)
Definition run_transformation `{Coercions} (raw_orders raw_payments raw_refunds : list event) : result (tables * DataFrame daily_row) :=
  orders ← normalize_orders raw_orders;
  payments ← normalize_payments raw_payments;
  refunds ← normalize_refunds raw_refunds;
  match build_fact_order_daily (mkTables orders payments refunds) with
  | (st, Ok daily) => Ok (st, daily)
  | (_, Raise e) => Raise e
  end.

(** ** A reference instance of the library conversions

    Used to run the model on concrete events: decimal literals for [float]
    and ISO-8601 calendar dates for [pd.to_datetime]. *)

Module Reference.

Definition digit_of (c : ascii) : option Z :=
  let n := nat_of_ascii c in
  if (48 <=? n)%nat && (n <=? 57)%nat then Some (Z.of_nat (n - 48)) else None.

(** Reads a run of digits: the value accumulated on [acc], the number of
    digits read, and the rest of the string. *)
Fixpoint take_digits (s : string) (acc : Z) (n : nat) : Z * nat * string :=
  match s with
  | String c s' =>
      match digit_of c with
      | Some d => take_digits s' (10 * acc + d)%Z (S n)
      | None => (acc, n, s)
      end
  | EmptyString => (acc, n, s)
  end.

Definition take_sign (s : string) : bool * string :=
  match s with
  | String "-" s' => (true, s')
  | String "+" s' => (false, s')
  | _ => (false, s)
  end.

Definition is_space (c : ascii) : bool :=
  let n := nat_of_ascii c in
  (n =? 32)%nat || ((9 <=? n)%nat && (n <=? 13)%nat).

Fixpoint lstrip (s : string) : string :=
  match s with
  | String c s' => if is_space c then lstrip s' else s
  | EmptyString => s
  end.

Fixpoint all_space (s : string) : bool :=
  match s with
  | String c s' => is_space c && all_space s'
  | EmptyString => true
  end.

(** [m * 10^e] *)
Definition scale10 (m e : Z) : Q :=
  if (0 <=? e)%Z then inject_Z (m * 10 ^ e) else Qred (Qmake m (Z.to_pos (10 ^ (- e)))).

(** The exponent part: nothing, or [e] with an optional sign and at least
    one digit; trailing blanks are allowed. *)
Definition take_exponent (s : string) : option Z :=
  match s with
  | String c s' =>
      if Ascii.eqb c "e" || Ascii.eqb c "E" then
        let '(neg, s1) := take_sign s' in
        let '(e, n, rest) := take_digits s1 0 0 in
        if (0 <? n)%nat && all_space rest then Some (if neg then - e else e)%Z else None
      else if all_space s then Some 0%Z else None
  | EmptyString => Some 0%Z
  end.

(** A decimal literal: blanks, sign, digits with an optional fraction,
    optional exponent, blanks. *)
Definition decimal_literal (s : string) : option Q :=
  let '(neg, s1) := take_sign (lstrip s) in
  let '(i, ni, s2) := take_digits s1 0 0 in
  let '(m, nf, s3) :=
    match s2 with
    | String "." s2' => take_digits s2' i 0
    | _ => (i, 0%nat, s2)
    end in
  if (0 <? ni + nf)%nat then
    match take_exponent s3 with
    | Some e => Some (scale10 (if neg then - m else m) (e - Z.of_nat nf))
    | None => None
    end
  else None.

Definition is_leap (y : Z) : bool :=
  ((y mod 4 =? 0) && negb (y mod 100 =? 0) || (y mod 400 =? 0))%Z.

Definition days_in_month (y m : Z) : Z :=
  if (m =? 2)%Z then (if is_leap y then 29 else 28)
  else if (m =? 4)%Z || (m =? 6)%Z || (m =? 9)%Z || (m =? 11)%Z then 30
  else 31.

(** Days from 1970-01-01 to the civil date [y-m-d]. *)
Definition days_from_civil (y m d : Z) : Z :=
  let y' := (if m <=? 2 then y - 1 else y)%Z in
  let era := (y' / 400)%Z in
  let yoe := (y' - era * 400)%Z in
  let mp := (if 2 <? m then m - 3 else m + 9)%Z in
  let doy := ((153 * mp + 2) / 5 + d - 1)%Z in
  let doe := (yoe * 365 + yoe / 4 - yoe / 100 + doy)%Z in
  (era * 146097 + doe - 719468)%Z.

(** Exactly [k] digits. *)
Definition take_fixed (k : nat) (s : string) : option (Z * string) :=
  let '(v, n, rest) := take_digits (substring 0 k s) 0 0 in
  if (n =? k)%nat && String.eqb rest "" && (k <=? String.length s)%nat
  then Some (v, substring k (String.length s - k) s)
  else None.

(** [YYYY-MM-DD], at midnight UTC, in nanoseconds. *)
Definition iso_date (s : string) : option Z :=
  '(y, s1) ← take_fixed 4 s;
  match s1 with
  | String "-" s2 =>
      '(m, s3) ← take_fixed 2 s2;
      match s3 with
      | String "-" s4 =>
          '(d, s5) ← take_fixed 2 s4;
          if String.eqb s5 "" && (1 <=? m)%Z && (m <=? 12)%Z && (1 <=? d)%Z
             && (d <=? days_in_month y m)%Z
          then Some (days_from_civil y m d * ns_per_day)%Z
          else None
      | _ => None
      end
  | _ => None
  end.

(** Strings are ISO dates, integers are nanoseconds since the epoch,
    everything else is NaT. *)
Definition reference_to_datetime (v : pyval) : option Z :=
  match v with
  | VStr s => iso_date s
  | VNum q => if Qeq_bool q (inject_Z (Qfloor q)) then Some (Qfloor q) else None
  | _ => None
  end.

#[export] Instance reference : Coercions := {|
  float_of_str := decimal_literal;
  to_datetime := reference_to_datetime
|}.

End Reference.


(** ** Vocabulary of the statements *)

(** The keys that [drop_duplicates] has met after the rows [l]. *)
Fixpoint seen_after {R : Type} (key : R -> pyval) (seen : list pyval) (l : list R) : list pyval :=
  match l with
  | [] => seen
  | x :: l' =>
      if existsb (py_eqb (key x)) seen then seen_after key seen l'
      else seen_after key (key x :: seen) l'
  end.

(** Ascending in [key], missing values first. *)
Definition sorted_by {R : Type} (key : R -> option Z) (s : list R) : Prop :=
  ForallOrdPairs (fun x y => na_first_leb (key x) (key y) = true) s.

(** The frame has every column of [cs]. *)
Definition has_columns {R : Type} (cs : list string) (df : DataFrame R) : Prop :=
  forall c, In c cs -> str_in c (columns df) = true.

(** The columns that the aggregator reads. *)
Definition aggregator_columns (st : tables) : Prop :=
  has_columns ["created_at"; "vendor"; "order_id"] (orders_df st) /\
  has_columns ["order_id"; "payment_amount"; "payment_status"] (payments_df st) /\
  has_columns ["order_id"; "refund_amount"] (refunds_df st).

(** The grouping key of an order: its calendar day and its vendor. *)
Definition order_key (o : order_row) : option group_key :=
  row_key (dt_date (o_created_at o)) (o_vendor o).

(** The orders of a group. *)
Definition group_of (k : group_key) (orders : list order_row) : list order_row :=
  List.filter (fun o => has_key k (order_key o)) orders.

(** The payments and refunds whose [order_id] is one of [ids]. *)
Definition matched_payments (ids : list pyval) (payments : list payment_row) : list payment_row :=
  List.filter (fun p => isin (p_order_id p) ids) payments.
Definition matched_refunds (ids : list pyval) (refunds : list refund_row) : list refund_row :=
  List.filter (fun r => isin (r_order_id r) ids) refunds.

Definition is_success (p : payment_row) : bool := py_eqb (p_payment_status p) (VStr "success").

(** The aggregate row of a group of orders, from the rows of the tables. *)
Definition daily_record_of (k : group_key) (group : list order_row)
    (payments : list payment_row) (refunds : list refund_row) : daily_row :=
  let ids := map o_order_id group in
  let gross := series_sum (map p_payment_amount (matched_payments ids payments)) in
  let refunded := series_sum (map r_refund_amount (matched_refunds ids refunds)) in
  let paid := len (List.filter is_success (matched_payments ids payments)) in
  {| d_order_date := fst k;
     d_vendor := snd k;
     d_gross_revenue := Qred gross;
     d_total_refunds := Qred refunded;
     d_net_revenue := Qred (gross - refunded);
     d_order_count := len group;
     d_paid_count := paid;
     d_payment_success_rate := success_rate paid (len group);
     d_refund_rate := refund_rate_of refunded gross |}.

Definition daily_record (orders : list order_row) (payments : list payment_row)
    (refunds : list refund_row) (k : group_key) : daily_row :=
  daily_record_of k (group_of k orders) payments refunds.

(** The store after the aggregator has assigned [order_date]. *)
Definition with_order_date (st : tables) : tables :=
  mkTables
    (set_col "order_date" (map (fun o => dt_date (o_created_at o)) (rows (orders_df st)))
       (orders_df st))
    (payments_df st) (refunds_df st).

(** The key of an aggregate row, and the order of the keys. *)
Definition daily_key (r : daily_row) : group_key := (d_order_date r, d_vendor r).
Definition key_lt (a b : group_key) : Prop := key_compare a b = Lt.

(** Orders with a timestamp, and the store without the other orders. *)
Definition has_date (o : order_row) : bool :=
  match o_created_at o with
  | Some _ => true
  | None => false
  end.

Definition drop_undated_orders (st : tables) : tables :=
  mkTables (on_rows (List.filter has_date) (orders_df st)) (payments_df st) (refunds_df st).

Definition dated_order_ids (st : tables) : list pyval :=
  map o_order_id (List.filter has_date (rows (orders_df st))).

(** The store without the payments and refunds that match no dated order. *)
Definition drop_unmatched (st : tables) : tables :=
  mkTables (orders_df st)
    (on_rows (List.filter (fun p => isin (p_order_id p) (dated_order_ids st))) (payments_df st))
    (on_rows (List.filter (fun r => isin (r_order_id r) (dated_order_ids st))) (refunds_df st)).

(** ** Sample events *)

Module Sample.

Definition order_event (order_id : string) (created_at : pyval) (vendor : string) : event :=
  mkEvent (Some order_id) (Some "order_created") (Some vendor)
    (<["order_id" := VStr order_id]> (<["created_at" := created_at]> ∅)).

Definition payment_event (payment_id order_id status : string) (amount : pyval) : event :=
  mkEvent (Some payment_id) (Some "payment_attempt") (Some "vendorX")
    (<["payment_id" := VStr payment_id]> (<["order_id" := VStr order_id]>
      (<["status" := VStr status]> (<["amount" := amount]> ∅)))).

Definition refund_event (refund_id order_id : string) (amount : pyval) : event :=
  mkEvent (Some refund_id) (Some "refund_created") (Some "vendorX")
    (<["refund_id" := VStr refund_id]> (<["order_id" := VStr order_id]>
      (<["amount" := amount]> ∅))).

(** The canonical row of [order_event] under the reference conversions. *)
Definition order (order_id : string) (created_at : option Z) (vendor : string) : order_row :=
  mkOrder (VStr order_id) VNone 0 VNone created_at
    (Some order_id) (Some vendor) (Some "order_created").

Definition payment (payment_id order_id status : string) (amount : Q) : payment_row :=
  mkPayment (VStr payment_id) (VStr order_id) amount (VStr status) VNone None
    (Some payment_id) (Some "vendorX").

Definition refund (refund_id order_id : string) (amount : Q) : refund_row :=
  mkRefund (VStr refund_id) (VStr order_id) VNone amount VNone VNone None
    (Some refund_id) (Some "vendorX").

(** 2024-01-01T00:00:00Z, and that day. *)
Definition jan1 : Z := 1704067200000000000.
Definition jan1_date : Z := 19723.

(** Two orders of one day and vendor, a successful payment of 10 for the
    first, a failed payment of 20 for the second, a refund of 3 for the
    first. *)
Definition two_orders : tables :=
  mkTables
    (mkDataFrame order_columns
       [order "A" (Some jan1) "vendorX"; order "B" (Some jan1) "vendorX"] [])
    (mkDataFrame payment_columns
       [payment "p1" "A" "success" 10; payment "p2" "B" "failed" 20] [])
    (mkDataFrame refund_columns [refund "r1" "A" 3] []).

(** A dated order and an order without timestamp, each with a successful
    payment and a refund. *)
Definition with_undated_order : tables :=
  mkTables
    (mkDataFrame order_columns
       [order "U" None "vendorX"; order "A" (Some jan1) "vendorX"] [])
    (mkDataFrame payment_columns
       [payment "p1" "A" "success" 10; payment "p2" "U" "success" 99] [])
    (mkDataFrame refund_columns [refund "r1" "A" 3; refund "r2" "U" 5] []).


(** One order without any payment of its own, and a refund. *)
Definition unpaid : tables :=
  mkTables
    (mkDataFrame order_columns [order "A" (Some jan1) "vendorX"] [])
    (mkDataFrame payment_columns [payment "p1" "Z" "success" 5] [])
    (mkDataFrame refund_columns [refund "r1" "A" 3] []).



End Sample.

(** ** transformer.py: the event query and the end of [run_transformation] *)

Definition ORDER_TYPES : list string :=
  ["historical_order"; "order_created"; "order_updated"].
Definition PAYMENT_TYPES : list string :=
  ["historical_payment"; "payment_attempt"; "payment_confirmed"].
Definition REFUND_TYPES : list string :=
  ["historical_refund"; "refund_created"; "refund_processed"].

(** [fetch_events] on the documents of [events_raw], in stored order: the
    documents whose [event_type] is one of [event_types]. *)
Definition fetch_events (events_raw : list event) (event_types : list string) : list event :=
  List.filter
    (fun e => match ev_event_type e with
              | Some t => str_in t event_types
              | None => false
              end)
    events_raw.

(** The three totals printed by [run_transformation] (lines 219-222). *)
Record revenue_summary : Type := mkSummary {
  sum_gross_revenue : Q;
  sum_total_refunds : Q;
  sum_net_revenue : Q
}.

Definition revenue_summary_of (daily_df : DataFrame daily_row) : result revenue_summary :=
  gross ← col "gross_revenue" d_gross_revenue daily_df;
  refunds ← col "total_refunds" d_total_refunds daily_df;
  net ← col "net_revenue" d_net_revenue daily_df;
  Ok {| sum_gross_revenue := series_sum gross;
        sum_total_refunds := series_sum refunds;
        sum_net_revenue := series_sum net |}.

(** [run_transformation] from the query of the events to its return
    (lines 190-227): the four frames it returns, with the printed totals.
    Writing the CSV files is left out. *)
Definition run_transformation_db `{Coercions} (events_raw : list event) : result (tables * DataFrame daily_row * revenue_summary) :=
  let raw_orders := fetch_events events_raw ORDER_TYPES in
  let raw_payments := fetch_events events_raw PAYMENT_TYPES in
  let raw_refunds := fetch_events events_raw REFUND_TYPES in
  '(st, daily_df) ← run_transformation raw_orders raw_payments raw_refunds;
  summary ← revenue_summary_of daily_df;
  Ok (st, daily_df, summary).

(** [run_quality_report] from the query of the events. *)
Definition run_quality_report_db `{Coercions} (events_raw : list event) : result (tables * report) :=
  run_quality_report (fetch_events events_raw ORDER_TYPES)
    (fetch_events events_raw PAYMENT_TYPES) (fetch_events events_raw REFUND_TYPES).

(** ** bq_loader.py *)

(** The columns of the CREATE TABLE statements (lines 19-69). *)
Definition fact_orders_schema : list string :=
  ["order_id"; "customer_id"; "vendor"; "order_amount"; "order_status";
   "created_at"; "event_id"].
Definition fact_payments_schema : list string :=
  ["payment_id"; "order_id"; "vendor"; "payment_amount"; "payment_status";
   "payment_method"; "payment_date"; "event_id"].
Definition fact_refunds_schema : list string :=
  ["refund_id"; "order_id"; "payment_id"; "vendor"; "refund_amount";
   "refund_reason"; "refund_type"; "refund_date"; "event_id"].
Definition fact_order_daily_schema : list string :=
  ["order_date"; "vendor"; "gross_revenue"; "total_refunds"; "net_revenue";
   "order_count"; "paid_count"; "payment_success_rate"; "refund_rate"].

(** [df[[c1, ..., cn]].copy()]: a new frame with these columns, in this
    order; a label that is not a column raises (the model reports the first
    missing label). *)
Definition take_columns {R : Type} (cs : list string) (df : DataFrame R) : result (DataFrame R) :=
  match List.find (fun c => negb (str_in c (columns df))) cs with
  | Some c => Raise (KeyError c)
  | None =>
      Ok (mkDataFrame cs (rows df)
            (List.filter (fun cv => str_in (fst cv) cs) (assigned df)))
  end.

(** [load_dataframe_to_bq]: what is sent to the warehouse; an empty frame is
    not loaded. *)
Definition load_dataframe_to_bq {R : Type} (df : DataFrame R) : option (DataFrame R) :=
  if df_empty df then None else Some df.

Record warehouse_load : Type := mkLoad {
  load_fact_orders : option (DataFrame order_row);
  load_fact_payments : option (DataFrame payment_row);
  load_fact_refunds : option (DataFrame refund_row);
  load_fact_order_daily : option (DataFrame daily_row)
}.

(** [run_pipeline] (lines 98-142): the frames sent to the four tables. *)
Definition run_pipeline `{Coercions} (events_raw : list event) : result warehouse_load :=
  '(st, daily_df, _) ← run_transformation_db events_raw;
  orders_bq ← take_columns
    ["order_id"; "customer_id"; "vendor"; "order_amount"; "order_status";
     "created_at"; "event_id"] (orders_df st);
  payments_bq ← take_columns
    ["payment_id"; "order_id"; "vendor"; "payment_amount"; "payment_status";
     "payment_method"; "payment_date"; "event_id"] (payments_df st);
  refunds_bq ← take_columns
    ["refund_id"; "order_id"; "payment_id"; "vendor"; "refund_amount";
     "refund_reason"; "refund_type"; "refund_date"; "event_id"] (refunds_df st);
  let daily_bq := daily_df in
  Ok {| load_fact_orders := load_dataframe_to_bq orders_bq;
        load_fact_payments := load_dataframe_to_bq payments_bq;
        load_fact_refunds := load_dataframe_to_bq refunds_bq;
        load_fact_order_daily := load_dataframe_to_bq daily_bq |}.

(** ** bootstrap_loader.py *)

(** The digests and the printing of numbers are library functions. *)
Class Encoders : Type := {
  sha256_hex : string -> string;
  md5_json : gmap string pyval -> string;
  str_of_num : Q -> string
}.

(** The stored event document; [ingested_at], the time of the load, is
    left out. *)
Record event_document : Type := mkDocument {
  doc_event_id : string;
  doc_event_type : string;
  doc_event_time : string;
  doc_vendor : string;
  doc_payload : gmap string pyval;
  doc_source : string
}.

(** The document as [fetch_events] hands it to the normalizers. *)
Definition stored_event (d : event_document) : event :=
  mkEvent (Some (doc_event_id d)) (Some (doc_event_type d)) (Some (doc_vendor d))
    (doc_payload d).

Section Bootstrap.

Context `{Encoders}.

(** [str(v)] *)
Definition py_str (v : pyval) : string :=
  match v with
  | VNone => "None"
  | VBool true => "True"
  | VBool false => "False"
  | VNum q => str_of_num q
  | VStr s => s
  end.

Definition make_event_id (event_type natural_key : string) : string :=
  sha256_hex (event_type ++ ":" ++ natural_key)%string.

Definition key_map (event_type : string) : list string :=
  if String.eqb event_type "historical_order" then ["order_id"; "id"]
  else if String.eqb event_type "historical_payment" then ["payment_id"; "id"; "transaction_id"]
  else if String.eqb event_type "historical_shipment" then ["shipment_id"; "id"; "tracking_id"]
  else if String.eqb event_type "historical_refund" then ["refund_id"; "id"]
  else [].

(** The loop [for field in fields: if field in record and record[field]]:
    the first value that is present and truthy. *)
Fixpoint first_truthy (fields : list string) (record : gmap string pyval) : option pyval :=
  match fields with
  | [] => None
  | field :: fields' =>
      match record !! field with
      | Some v => if truthy v then Some v else first_truthy fields' record
      | None => first_truthy fields' record
      end
  end.

(** The loop [for field in fields: if field in record]: the first value
    that is present. *)
Fixpoint first_present (fields : list string) (record : gmap string pyval) : option pyval :=
  match fields with
  | [] => None
  | field :: fields' =>
      match record !! field with
      | Some v => Some v
      | None => first_present fields' record
      end
  end.

Definition extract_natural_key (event_type : string) (record : gmap string pyval) : string :=
  match first_truthy (key_map event_type) record with
  | Some v => py_str v
  | None => md5_json record
  end.

Definition extract_event_time (event_type : string) (record : gmap string pyval) : string :=
  match first_truthy
          ["created_at"; "order_date"; "payment_date"; "shipped_at"; "refund_date";
           "timestamp"; "date"] record with
  | Some v => py_str v
  | None => "2023-01-01T00:00:00Z"
  end.

Definition extract_vendor (record : gmap string pyval) : string :=
  match first_present ["vendor_id"; "vendor"; "seller_id"; "merchant_id"] record with
  | Some v => py_str v
  | None => "unknown"
  end.

Definition wrap_as_event (event_type : string) (record : gmap string pyval) : event_document :=
  let natural_key := extract_natural_key event_type record in
  {| doc_event_id := make_event_id event_type natural_key;
     doc_event_type := event_type;
     doc_event_time := extract_event_time event_type record;
     doc_vendor := extract_vendor record;
     doc_payload := record;
     doc_source := "historical_bootstrap" |}.

(** The documents that [load_bootstrap_file] upserts for the records of a
    file (lines 91-100). *)
Definition bootstrap_documents (event_type : string) (records : list (gmap string pyval)) : list event_document :=
  map (wrap_as_event event_type) records.

End Bootstrap.

(** Stand-ins for the encoders, to run the loader model on concrete
    records: the digests are replaced by a readable tag of their input
    (for the record, of its keys), which is not a digest. *)
Module StandIn.

Definition show_num (q : Q) : string :=
  if Pos.eqb (Qden (Qred q)) 1 then pretty (Qnum (Qred q))
  else (pretty (Qnum (Qred q)) ++ "/" ++ pretty (Z.pos (Qden (Qred q))))%string.

#[export] Instance encoders : Encoders := {|
  sha256_hex := fun s => ("sha256(" ++ s ++ ")")%string;
  md5_json := fun record =>
    ("md5(" ++ String.concat "," (map fst (map_to_list record)) ++ ")")%string;
  str_of_num := show_num
|}.

End StandIn.

(** ** live_event_loader.py *)

(** ASCII white space as [str.strip] removes it. *)
Definition is_py_space (c : ascii) : bool :=
  let n := nat_of_ascii c in
  ((9 <=? n) && (n <=? 13) || (28 <=? n) && (n <=? 32))%nat.

Fixpoint lstrip (s : string) : string :=
  match s with
  | String c s' => if is_py_space c then lstrip s' else s
  | EmptyString => s
  end.

Fixpoint rstrip (s : string) : string :=
  match s with
  | String c s' =>
      match rstrip s' with
      | EmptyString => if is_py_space c then EmptyString else String c EmptyString
      | r => String c r
      end
  | EmptyString => s
  end.

(** [line.strip()] *)
Definition strip (s : string) : string := rstrip (lstrip s).

Section LiveLoader.

(** The values of an event document are kept abstract; [json_loads] gives
    the object of a line ([None] is [JSONDecodeError]; a line holding a
    JSON value that is not an object is outside the model), [now n] is the
    time at which line [n] is tagged. *)
Context {V : Type}.
Context (json_loads : string -> option (gmap string V)).
Context (now : nat -> V).
Context (str_value : string -> V).

(** [UpdateOne({"event_id": id}, {"$set": event}, upsert=True)] *)
Record update_one : Type := mkUpdate {
  upd_event_id : V;
  upd_set : gmap string V
}.

(** The loop over the lines of the file (lines 33-57), with the line
    number, the operations and the count of skipped lines so far.  The
    filter of an operation is the [event_id] of the line's object, which
    the two assignments before it do not touch. *)
Fixpoint load_lines (lines : list string) (n : nat) (ops : list update_one) (skipped : Z) : list update_one * Z :=
  match lines with
  | [] => (ops, skipped)
  | line :: rest =>
      let line := strip line in
      if String.eqb line "" then load_lines rest (S n) ops skipped
      else
        match json_loads line with
        | None => load_lines rest (S n) ops (skipped + 1)
        | Some event =>
            match event !! "event_id" with
            | None => load_lines rest (S n) ops (skipped + 1)
            | Some event_id =>
                let event := <["ingested_at" := now n]> event in
                let event := <["source" := str_value "live_stream"]> event in
                load_lines rest (S n) (ops ++ [mkUpdate event_id event]) skipped
            end
        end
  end.

(** [load_live_events] on the lines of the day's file, [None] when the
    file does not exist: the operations handed to [bulk_write] (none when
    the list is empty) and the number of skipped lines. *)
Definition load_live_events (file : option (list string)) : list update_one * Z :=
  match file with
  | None => ([], 0%Z)
  | Some lines => load_lines lines 0 [] 0%Z
  end.

End LiveLoader.

Arguments mkUpdate {V} upd_event_id upd_set.
Arguments upd_event_id {V} u.
Arguments upd_set {V} u.


(** The operation is the upsert that the loop makes for the object of one
    of the lines. *)
Definition upsert_of {V : Type} (json_loads : string -> option (gmap string V))
    (now : nat -> V) (str_value : string -> V)
    (all : list string) (op : update_one (V := V)) : Prop :=
  exists line event n,
    In line all /\ json_loads (strip line) = Some event /\
    event !! "event_id" = Some (upd_event_id op) /\
    upd_set op = <["source" := str_value "live_stream"]> (<["ingested_at" := now n]> event).

(** A stand-in for the JSON decoder, to run the loop on concrete lines: a
    line [key=value] stands for the object with that one field, a line
    without [=] is not decodable. *)
Module LineFormat.

Definition json_loads (line : string) : option (gmap string string) :=
  match String.index 0 "=" line with
  | Some i =>
      Some {[ String.substring 0 i line :=
                String.substring (S i) (String.length line - S i) line ]}
  | None => None
  end.

Definition now (n : nat) : string := ("t" ++ pretty n)%string.

Definition lines : list string :=
  [ "  event_id=e1 "; "   "; "oops"; "event_type=order_created"; "event_id=e2" ].

Definition second_upsert : update_one :=
  mkUpdate "e2" (<["source" := "live_stream"]>
                   (<["ingested_at" := "t4"]> {[ "event_id" := "e2" ]})).

End LineFormat.

(** ** More vocabulary *)

(** The order has a date and a vendor, so it belongs to a group. *)
Definition has_group (o : order_row) : bool :=
  match order_key o with
  | Some _ => true
  | None => false
  end.

(** The ids of the orders that belong to a group. *)
Definition grouped_order_ids (orders : list order_row) : list pyval :=
  map o_order_id (List.filter has_group orders).

Definition sum_Z (l : list Z) : Z := fold_right Z.add 0%Z l.

(** The event has one of the nine types that the pipeline queries. *)
Definition relevant_type (e : event) : bool :=
  match ev_event_type e with
  | Some t => str_in t (ORDER_TYPES ++ PAYMENT_TYPES ++ REFUND_TYPES)
  | None => false
  end.

(** No two rows have equal ids. *)
Definition distinct_order_ids (orders : list order_row) : Prop :=
  ForallOrdPairs (fun r1 r2 => py_eqb (o_order_id r1) (o_order_id r2) = false) orders.

(** * Properties *)

(** ** The model at work *)

Example decimal_literal_values :
  map Reference.decimal_literal ["12.50"; " -1e-2 "; "7"; "abc"; ""; "1.2.3"] =
  [Some (25 # 2); Some (-1 # 100); Some 7; None; None; None]%Q.
Proof. reflexivity. Qed.

Example iso_date_values :
  map Reference.iso_date ["2024-01-01"; "1970-01-02"; "2024-02-30"; "yesterday"] =
  [Some Sample.jan1; Some ns_per_day; None; None].
Proof. reflexivity. Qed.

Example round_values :
  (round (1 # 3) 4 = 3333 # 10000 /\ round (1 # 8) 2 = 3 # 25 /\ round (3 # 8) 2 = 19 # 50 /\
   round (1 # 1000) 2 = 0 /\ round (- (1 # 3)) 4 = -3333 # 10000)%Q.
Proof. repeat split. Qed.

(** The spec's example, from raw events to the daily aggregates. *)
Example two_orders_end_to_end :
  run_transformation (H := Reference.reference)
    [Sample.order_event "A" (VStr "2024-01-01") "vendorX";
     Sample.order_event "B" (VStr "2024-01-01") "vendorX"]
    [Sample.payment_event "p1" "A" "Success" (VNum 10);
     Sample.payment_event "p2" "B" "FAILED" (VNum 20)]
    [Sample.refund_event "r1" "A" (VStr "3.00")] =
  Ok (with_order_date Sample.two_orders,
      mkDataFrame daily_columns
        [mkDaily Sample.jan1_date "vendorX" 30 3 27 2 1 (Some (1 # 2)) (Some (1 # 10))] []).
Proof. vm_compute. reflexivity. Qed.

(** Without payment events the payments table has no columns and the
    aggregator stops at its first read of that table. *)
Example no_payment_events :
  run_transformation (H := Reference.reference)
    [Sample.order_event "A" (VStr "2024-01-01") "vendorX"] []
    [Sample.refund_event "r1" "A" (VNum 3)] = Raise (KeyError "order_id").
Proof. vm_compute. reflexivity. Qed.

(** ** Equality of scalars *)

Lemma Qeq_bool_true_refl (q : Q) : Qeq_bool q q = true.
Proof. apply Qeq_bool_iff. reflexivity. Qed.

Lemma Qeq_bool_sym (x y : Q) : Qeq_bool x y = Qeq_bool y x.
Proof.
  destruct (Qeq_bool x y) eqn:E1, (Qeq_bool y x) eqn:E2; try reflexivity.
  - apply Qeq_bool_iff in E1. symmetry in E1. apply Qeq_bool_iff in E1. congruence.
  - apply Qeq_bool_iff in E2. symmetry in E2. apply Qeq_bool_iff in E2. congruence.
Qed.

Lemma Qeq_bool_trans' (x y z : Q) :
  Qeq_bool x y = true -> Qeq_bool y z = true -> Qeq_bool x z = true.
Proof.
  rewrite !Qeq_bool_iff. intros H1 H2. rewrite H1. exact H2.
Qed.

Lemma py_eqb_refl (a : pyval) : py_eqb a a = true.
Proof.
  destruct a as [|b|q|s]; simpl; auto using Qeq_bool_true_refl.
  apply String.eqb_refl.
Qed.

Lemma py_eqb_sym (a b : pyval) : py_eqb a b = py_eqb b a.
Proof.
  destruct a, b; simpl; auto using Qeq_bool_sym.
  apply String.eqb_sym.
Qed.

Lemma py_eqb_trans (a b c : pyval) :
  py_eqb a b = true -> py_eqb b c = true -> py_eqb a c = true.
Proof.
  destruct a, b, c; simpl; try congruence; eauto using Qeq_bool_trans'.
  rewrite !String.eqb_eq. congruence.
Qed.

(** ** The error monad *)

Lemma mapM_app {A B : Type} (f : A -> result B) (xs ys : list A) :
  mapM f (xs ++ ys) = (a ← mapM f xs; b ← mapM f ys; Ok (a ++ b)).
Proof.
  induction xs as [|x xs IH]; simpl.
  - unfold mbind, result_bind. destruct (mapM f ys); reflexivity.
  - unfold mbind, result_bind in *. destruct (f x); [|reflexivity].
    rewrite IH. destruct (mapM f xs); [|reflexivity].
    destruct (mapM f ys); reflexivity.
Qed.

(** Every record of a successful loop comes from an input, in order. *)
Lemma mapM_Forall2 {A B : Type} (f : A -> result B) (xs : list A) (ys : list B) :
  mapM f xs = Ok ys <-> Forall2 (fun x y => f x = Ok y) xs ys.
Proof.
  revert ys. induction xs as [|x xs IH]; intros ys; simpl.
  - split; intros Hx; inversion Hx; subst; [constructor | reflexivity].
  - unfold mbind, result_bind. split.
    + destruct (f x) eqn:Ex; [|discriminate].
      destruct (mapM f xs) eqn:Em; [|discriminate].
      intros [= <-]. constructor; [assumption | apply IH; reflexivity].
    + intros Hx. inversion Hx as [|x0 y l l' Hxy Hrest]; subst.
      rewrite Hxy. apply IH in Hrest. rewrite Hrest. reflexivity.
Qed.

Lemma mapM_In {A B : Type} (f : A -> result B) (xs : list A) (ys : list B) (y : B) :
  mapM f xs = Ok ys -> In y ys -> exists x, In x xs /\ f x = Ok y.
Proof.
  rewrite mapM_Forall2. induction 1 as [|x y' xs ys Hxy _ IH]; simpl; [tauto|].
  intros [<-|Hy]; [eauto|]. destruct (IH Hy) as (x' & ? & ?). eauto.
Qed.

Lemma mapM_In_inv {A B : Type} (f : A -> result B) (xs : list A) (ys : list B) (x : A) :
  mapM f xs = Ok ys -> In x xs -> exists y, In y ys /\ f x = Ok y.
Proof.
  rewrite mapM_Forall2. induction 1 as [|x' y xs ys Hxy _ IH]; simpl; [tauto|].
  intros [<-|Hx]; [eauto|]. destruct (IH Hx) as (y' & ? & ?). eauto.
Qed.

Lemma mapM_nonempty {A B : Type} (f : A -> result B) (xs : list A) (ys : list B) :
  mapM f xs = Ok ys -> xs <> [] -> ys <> [].
Proof.
  rewrite mapM_Forall2. destruct 1; congruence.
Qed.

(** ** Masks, sorting and duplicates *)

Lemma mask_filter_map {A : Type} (p : A -> bool) (l : list A) :
  mask_filter (map p l) l = List.filter p l.
Proof.
  induction l as [|x l IH]; simpl; [reflexivity|]. rewrite IH. reflexivity.
Qed.

Lemma mask_filter_map2 {A B : Type} (g : A -> B) (p : B -> bool) (l : list A) :
  mask_filter (map p (map g l)) l = List.filter (fun x => p (g x)) l.
Proof.
  rewrite map_map. apply (mask_filter_map (fun x => p (g x))).
Qed.

Section Dedup.

Context {R : Type} (key : R -> pyval).



Lemma drop_duplicates_from_app (l1 l2 : list R) : forall seen,
  drop_duplicates_from key seen (l1 ++ l2) =
  drop_duplicates_from key seen l1 ++ drop_duplicates_from key (seen_after key seen l1) l2.
Proof.
  induction l1 as [|x l1 IH]; intros seen; simpl; [reflexivity|].
  destruct (existsb (py_eqb (key x)) seen); rewrite IH; reflexivity.
Qed.





End Dedup.

Lemma na_first_leb_refl (a : option Z) : na_first_leb a a = true.
Proof. destruct a; simpl; [apply Z.leb_refl | reflexivity]. Qed.

Lemma na_first_leb_total (a b : option Z) :
  na_first_leb a b = false -> na_first_leb b a = true.
Proof.
  destruct a, b; simpl; try congruence. intros Hab. apply Z.leb_gt in Hab.
  apply Z.leb_le. lia.
Qed.

Lemma na_first_leb_trans (a b c : option Z) :
  na_first_leb a b = true -> na_first_leb b c = true -> na_first_leb a c = true.
Proof.
  destruct a, b, c; simpl; try congruence. rewrite !Z.leb_le. lia.
Qed.

Section Sorting.

Context {R : Type} (key : R -> option Z).

(** [insert_by] puts the row after the rows that are strictly smaller. *)
Lemma insert_by_split (x : R) (s : list R) :
  exists p q, s = p ++ q /\ insert_by key x s = p ++ x :: q /\
              (forall y, In y p -> na_first_leb (key x) (key y) = false).
Proof.
  induction s as [|y s IH]; simpl.
  - exists [], []. simpl. tauto.
  - destruct (na_first_leb (key x) (key y)) eqn:E.
    + exists [], (y :: s). simpl. tauto.
    + destruct IH as (p & q & -> & -> & Hp).
      exists (y :: p), q. simpl. repeat split; try reflexivity.
      intros z [<-|Hz]; [exact E | apply Hp, Hz].
Qed.

Lemma insert_by_In (x y : R) (s : list R) :
  In y (insert_by key x s) <-> y = x \/ In y s.
Proof.
  destruct (insert_by_split x s) as (p & q & -> & -> & _).
  rewrite !in_app_iff. simpl. intuition congruence.
Qed.

Lemma sort_values_In (y : R) (l : list R) : In y (sort_values key l) <-> In y l.
Proof.
  induction l as [|x l IH]; simpl; [tauto|].
  rewrite insert_by_In, IH. intuition congruence.
Qed.


End Sorting.



(** ** Replayed input *)

Lemma from_records_cons {R : Type} (keys : list string) (l : list R) :
  l <> [] -> from_records keys l = mkDataFrame keys l [].
Proof. destruct l; [congruence | reflexivity]. Qed.


Section NormalizerShape.

Context `{Coercions}.

Lemma normalize_orders_nonempty (events : list event) :
  events <> [] ->
  normalize_orders events =
  (rs ← mapM order_record events;
   Ok (on_rows (drop_duplicates_last o_order_id)
         (on_rows (sort_values o_created_at) (from_records order_columns rs)))).
Proof. destruct events; [congruence | reflexivity]. Qed.

Lemma normalize_payments_nonempty (events : list event) :
  events <> [] ->
  normalize_payments events =
  (rs ← mapM payment_record events;
   Ok (on_rows (drop_duplicates p_payment_id) (from_records payment_columns rs))).
Proof. destruct events; [congruence | reflexivity]. Qed.

Lemma normalize_refunds_nonempty (events : list event) :
  events <> [] ->
  normalize_refunds events =
  (rs ← mapM refund_record events;
   Ok (on_rows (drop_duplicates r_refund_id) (from_records refund_columns rs))).
Proof. destruct events; [congruence | reflexivity]. Qed.

End NormalizerShape.



(** ** Orders: the latest record of an order wins *)

Section Sorted.

Context {R : Type} (key : R -> option Z).

Lemma insert_by_sorted (x : R) (s : list R) :
  sorted_by key s -> sorted_by key (insert_by key x s).
Proof.
  unfold sorted_by. induction 1 as [|y s Hy Hs IH]; simpl.
  - repeat constructor.
  - destruct (na_first_leb (key x) (key y)) eqn:E.
    + constructor; [|constructor; assumption].
      constructor; [exact E|]. eapply List.Forall_impl; [|exact Hy].
      intros z Hz. eapply na_first_leb_trans; eassumption.
    + constructor; [|exact IH]. apply List.Forall_forall. intros z Hz.
      apply insert_by_In in Hz. destruct Hz as [->|Hz].
      * apply na_first_leb_total, E.
      * rewrite List.Forall_forall in Hy. apply Hy, Hz.
Qed.

Lemma sort_values_sorted (l : list R) : sorted_by key (sort_values key l).
Proof.
  induction l as [|x l IH]; simpl; [constructor | apply insert_by_sorted, IH].
Qed.

End Sorted.

Section KeepLast.

Context {R : Type} (id : R -> pyval).

Lemma drop_duplicates_last_In (x : R) (l : list R) :
  In x (drop_duplicates_last id l) -> In x l.
Proof.
  induction l as [|y l IH]; simpl; [tauto|].
  destruct (existsb _ l); simpl; tauto.
Qed.

(** One row per key. *)
Lemma drop_duplicates_last_distinct (l : list R) :
  ForallOrdPairs (fun x y => py_eqb (id x) (id y) = false) (drop_duplicates_last id l).
Proof.
  induction l as [|x l IH]; simpl; [constructor|].
  destruct (existsb (fun y => py_eqb (id x) (id y)) l) eqn:E; [exact IH|].
  constructor; [|exact IH]. apply List.Forall_forall. intros y Hy.
  apply drop_duplicates_last_In in Hy.
  destruct (py_eqb (id x) (id y)) eqn:Exy; [|reflexivity].
  assert (existsb (fun y0 => py_eqb (id x) (id y0)) l = true)
    by (apply existsb_exists; eauto).
  congruence.
Qed.

(** Every key keeps a row. *)
Lemma drop_duplicates_last_covers (l : list R) : forall x,
  In x l -> exists y, In y (drop_duplicates_last id l) /\ py_eqb (id x) (id y) = true.
Proof.
  induction l as [|a l IH]; simpl; [tauto|].
  intros x Hin.
  assert (Hl : forall z, In z l ->
            exists y, In y (if existsb (fun y0 => py_eqb (id a) (id y0)) l
                            then drop_duplicates_last id l
                            else a :: drop_duplicates_last id l) /\
                      py_eqb (id z) (id y) = true).
  { intros z Hz. destruct (IH z Hz) as (y & Hy & Hzy). exists y.
    split; [|exact Hzy]. destruct (existsb _ l); simpl; auto. }
  destruct Hin as [->|Hin]; [|apply Hl, Hin].
  destruct (existsb (fun y0 => py_eqb (id x) (id y0)) l) eqn:E.
  - apply existsb_exists in E. destruct E as (z & Hz & Hxz).
    destruct (IH z Hz) as (y & Hy & Hzy). exists y. split; [exact Hy|].
    eapply py_eqb_trans; eassumption.
  - exists x. split; [left; reflexivity | apply py_eqb_refl].
Qed.

End KeepLast.

Section SortedDedup.

Context {R : Type} (key : R -> option Z) (id : R -> pyval).

(** In a sorted list the kept row of a key has the greatest sort key. *)
Lemma drop_duplicates_last_greatest (s : list R) (r r' : R) :
  sorted_by key s ->
  In r (drop_duplicates_last id s) -> In r' s ->
  py_eqb (id r') (id r) = true ->
  na_first_leb (key r') (key r) = true.
Proof.
  unfold sorted_by. induction 1 as [|a s Ha Hs IH]; simpl; [tauto|].
  rewrite List.Forall_forall in Ha.
  destruct (existsb (fun y => py_eqb (id a) (id y)) s) eqn:E.
  - intros Hr [<-|Hr'] Heq.
    + apply Ha. eapply drop_duplicates_last_In, Hr.
    + apply IH; assumption.
  - intros [<-|Hr] [<-|Hr'] Heq.
    + apply na_first_leb_refl.
    + rewrite py_eqb_sym in Heq.
      assert (existsb (fun y => py_eqb (id a) (id y)) s = true)
        by (apply existsb_exists; eauto).
      congruence.
    + apply Ha. eapply drop_duplicates_last_In, Hr.
    + apply IH; assumption.
Qed.

End SortedDedup.

Lemma normalize_orders_rows `{Coercions} (events : list event) (df : DataFrame order_row) :
  normalize_orders events = Ok df ->
  exists rs, mapM order_record events = Ok rs /\
             rows df = drop_duplicates_last o_order_id (sort_values o_created_at rs).
Proof.
  destruct events as [|e es].
  - intros [= <-]. exists []. split; reflexivity.
  - rewrite normalize_orders_nonempty by discriminate.
    unfold mbind, result_bind.
    destruct (mapM order_record (e :: es)) as [rs|] eqn:E; [|discriminate].
    intros [= <-]. exists rs. split; [reflexivity|].
    rewrite from_records_cons; [reflexivity|].
    eapply mapM_nonempty; [exact E | discriminate].
Qed.

Lemma order_record_order_id `{Coercions} (e : event) (r : order_row) :
  order_record e = Ok r -> o_order_id r = get (ev_payload e) "order_id".
Proof.
  unfold order_record, mbind, result_bind.
  destruct (float _); [|discriminate]. intros [= <-]. reflexivity.
Qed.

(** C5. Orders keep exactly one row per [order_id]: no two rows of the
    table have equal ids, every row is the record of an input event, every
    input id has a row, and the kept row has the greatest [created_at]
    among the records of its id, a missing timestamp being below every
    date.  For two events of one order, one without a date and one dated,
    the dated record is the table, whichever comes first. *)
Theorem orders_dedup_latest_wins `{Coercions} :
  (forall (events : list event) (df : DataFrame order_row),
     normalize_orders events = Ok df ->
     ForallOrdPairs (fun r1 r2 => py_eqb (o_order_id r1) (o_order_id r2) = false) (rows df) /\
     (forall r, In r (rows df) -> exists e, In e events /\ order_record e = Ok r) /\
     (forall e, In e events ->
        exists r, In r (rows df) /\
                  py_eqb (get (ev_payload e) "order_id") (o_order_id r) = true) /\
     (forall r e r', In r (rows df) -> In e events -> order_record e = Ok r' ->
        py_eqb (o_order_id r') (o_order_id r) = true ->
        na_first_leb (o_created_at r') (o_created_at r) = true)) /\
  (forall (e1 e2 : event) (r1 r2 : order_row) (t : Z),
     order_record e1 = Ok r1 -> order_record e2 = Ok r2 ->
     py_eqb (o_order_id r1) (o_order_id r2) = true ->
     o_created_at r1 = None -> o_created_at r2 = Some t ->
     normalize_orders [e1; e2] = Ok (mkDataFrame order_columns [r2] []) /\
     normalize_orders [e2; e1] = Ok (mkDataFrame order_columns [r2] [])).
Proof.
  split.
  - intros events df Hn.
    destruct (normalize_orders_rows _ _ Hn) as (rs & Hrs & ->).
    repeat split.
    + apply drop_duplicates_last_distinct.
    + intros r Hr. apply drop_duplicates_last_In in Hr. rewrite sort_values_In in Hr.
      eapply mapM_In; eassumption.
    + intros e He. destruct (mapM_In_inv _ _ _ _ Hrs He) as (r' & Hr' & Her').
      destruct (drop_duplicates_last_covers o_order_id (sort_values o_created_at rs) r')
        as (r & Hr & Heq); [apply sort_values_In, Hr'|].
      exists r. split; [exact Hr|].
      rewrite <- (order_record_order_id _ _ Her'). exact Heq.
    + intros r e r' Hr He Her' Heq.
      destruct (mapM_In_inv _ _ _ _ Hrs He) as (r'' & Hr'' & Her'').
      assert (r'' = r') by congruence. subst r''.
      eapply drop_duplicates_last_greatest;
        [apply sort_values_sorted | exact Hr | apply sort_values_In, Hr'' | exact Heq].
  - intros e1 e2 r1 r2 t H1 H2 Heq Hnone Hsome.
    unfold normalize_orders. simpl. unfold mbind, result_bind.
    rewrite H1, H2. unfold on_rows. simpl.
    rewrite Hnone, Hsome. simpl. rewrite Heq. simpl. split; reflexivity.
Qed.

Lemma orders_dedup_latest_wins_witness :
  let undated := Sample.order_event "A" VNone "vendorX" in
  let dated := Sample.order_event "A" (VStr "2024-01-01") "vendorX" in
  let table := mkDataFrame order_columns [Sample.order "A" (Some Sample.jan1) "vendorX"] [] in
  (normalize_orders (H := Reference.reference) [undated; dated] = Ok table /\
   normalize_orders (H := Reference.reference) [dated; undated] = Ok table) /\
  ForallOrdPairs (fun r1 r2 => py_eqb (o_order_id r1) (o_order_id r2) = false) (rows table).
Proof.
  intros undated dated table. split.
  - apply (proj2 (orders_dedup_latest_wins (H := Reference.reference)) undated dated
             (Sample.order "A" None "vendorX") (Sample.order "A" (Some Sample.jan1) "vendorX")
             Sample.jan1); reflexivity.
  - apply (proj1 (orders_dedup_latest_wins (H := Reference.reference)) [undated; dated] table).
    reflexivity.
Defined.

(** ** The daily aggregator, step by step *)

Ltac run_M := unfold mbind, M_bind, mret, M_ret, lift, gets, put_orders; simpl.

Lemma col_ok {R A : Type} (c : string) (f : R -> A) (df : DataFrame R) :
  str_in c (columns df) = true -> col c f df = Ok (map f (rows df)).
Proof. unfold col. intros ->. reflexivity. Qed.

Lemma str_in_app (c : string) (xs ys : list string) :
  str_in c (xs ++ ys) = str_in c xs || str_in c ys.
Proof. apply existsb_app. Qed.

Lemma has_columns_set_col {R : Type} (cs : list string) (c : string)
    (values : list (option Z)) (df : DataFrame R) :
  has_columns cs df -> has_columns cs (set_col c values df).
Proof.
  intros Hc c' Hin. simpl. destruct (str_in c (columns df)).
  - apply Hc, Hin.
  - rewrite str_in_app, (Hc c' Hin). reflexivity.
Qed.

Lemma map_combine_maps {A B C D : Type} (f : B * C -> D) (g : A -> B) (h : A -> C)
    (l : list A) :
  map f (combine (map g l) (map h l)) = map (fun x => f (g x, h x)) l.
Proof.
  induction l as [|x l IH]; simpl; [reflexivity|]. rewrite IH. reflexivity.
Qed.

Lemma forM_state {A B : Type} (f : A -> M B) (xs : list A) :
  (forall x st, fst (f x st) = st) -> forall st, fst (forM f xs st) = st.
Proof.
  intros Hf. induction xs as [|x xs IH]; intros st; simpl; [reflexivity|].
  run_M. specialize (Hf x st). destruct (f x st) as [st1 [y|e]]; simpl in Hf; subst st1.
  - specialize (IH st). destruct (forM f xs st) as [st2 [ys|e]]; simpl in IH; subst st2;
      reflexivity.
  - reflexivity.
Qed.

Lemma forM_pure {A B : Type} (f : A -> M B) (g : A -> B) (xs : list A) (st : tables) :
  (forall x, In x xs -> f x st = (st, Ok (g x))) ->
  forM f xs st = (st, Ok (map g xs)).
Proof.
  induction xs as [|x xs IH]; intros Hf; simpl; [reflexivity|].
  run_M. rewrite (Hf x (or_introl eq_refl)).
  rewrite IH; [reflexivity|]. intros y Hy. apply Hf. right. exact Hy.
Qed.

Lemma len_map {A B : Type} (f : A -> B) (l : list A) : len (map f l) = len l.
Proof. unfold len. rewrite length_map. reflexivity. Qed.

Lemma count_true_map {A B : Type} (f : A -> B) (p : B -> bool) (l : list A) :
  count_true p (map f l) = len (List.filter (fun x => p (f x)) l).
Proof.
  unfold count_true, len. f_equal.
  induction l as [|x l IH]; simpl; [reflexivity|].
  destruct (p (f x)); simpl; rewrite IH; reflexivity.
Qed.

(** The loop body only reads the store. *)
Lemma aggregate_group_state (g : group_key * DataFrame order_row) (st : tables) :
  fst (aggregate_group g st) = st.
Proof.
  destruct g as [[date vendor] group]. unfold aggregate_group. run_M.
  repeat match goal with
         | |- context [col ?c ?f ?df] => destruct (col c f df); simpl; try reflexivity
         end.
Qed.

Lemma aggregate_group_ok (k : group_key) (group : DataFrame order_row) (st : tables) :
  has_columns ["order_id"] group ->
  has_columns ["order_id"; "payment_amount"; "payment_status"] (payments_df st) ->
  has_columns ["order_id"; "refund_amount"] (refunds_df st) ->
  aggregate_group (k, group) st =
  (st, Ok (daily_record_of k (rows group) (rows (payments_df st)) (rows (refunds_df st)))).
Proof.
  intros Hg Hp Hr. destruct k as [date vendor]. unfold aggregate_group. run_M.
  rewrite (col_ok "order_id" o_order_id group) by (apply Hg; simpl; auto).
  rewrite (col_ok "order_id" p_order_id (payments_df st)) by (apply Hp; simpl; auto).
  simpl.
  rewrite (col_ok "payment_amount") by (apply Hp; simpl; auto).
  rewrite (col_ok "payment_status") by (apply Hp; simpl; auto).
  simpl.
  rewrite (col_ok "order_id" r_order_id (refunds_df st)) by (apply Hr; simpl; auto).
  simpl.
  rewrite (col_ok "refund_amount") by (apply Hr; simpl; auto).
  simpl. rewrite !mask_filter_map2, !count_true_map, len_map.
  reflexivity.
Qed.

Lemma build_empty (st : tables) :
  df_empty (orders_df st) = true ->
  build_fact_order_daily st = (st, Ok empty_frame).
Proof.
  intros He. unfold build_fact_order_daily. run_M. rewrite He. reflexivity.
Qed.

Lemma order_keys_eq (l : list order_row) :
  map (fun dv => row_key (fst dv) (snd dv))
      (combine (map dt_date (map o_created_at l)) (map o_vendor l)) =
  map order_key l.
Proof.
  rewrite map_map. apply (map_combine_maps (fun dv => row_key (fst dv) (snd dv))).
Qed.

(** The store after the aggregator: untouched, or with the new column. *)
Lemma build_state (st : tables) :
  fst (build_fact_order_daily st) =
  if df_empty (orders_df st) then st
  else if str_in "created_at" (columns (orders_df st)) then with_order_date st
  else st.
Proof.
  unfold build_fact_order_daily. run_M.
  destruct (df_empty (orders_df st)); [reflexivity|].
  unfold col at 1. destruct (str_in "created_at" (columns (orders_df st))); [|reflexivity].
  simpl. rewrite map_map.
  match goal with |- context [col "vendor" ?f ?df] => destruct (col "vendor" f df) end;
    [|reflexivity].
  simpl.
  match goal with |- context [forM ?f ?xs ?s] =>
    pose proof (forM_state f xs aggregate_group_state s) as Hs;
    destruct (forM f xs s) as [s' [ys|e]] end;
  simpl in Hs; subst; reflexivity.
Qed.

(** With the columns in place the aggregator returns one record per key. *)
Lemma build_ok (st : tables) :
  aggregator_columns st ->
  df_empty (orders_df st) = false ->
  build_fact_order_daily st =
  (with_order_date st,
   Ok (from_records daily_columns
         (map (daily_record (rows (orders_df st)) (rows (payments_df st)) (rows (refunds_df st)))
              (group_keys (map order_key (rows (orders_df st))))))).
Proof.
  intros (Ho & Hp & Hr) He. unfold build_fact_order_daily. run_M. rewrite He.
  rewrite (col_ok "created_at") by (apply Ho; simpl; auto). simpl.
  rewrite (col_ok "vendor")
    by (apply (has_columns_set_col ["created_at"; "vendor"; "order_id"]);
        [exact Ho | simpl; auto]).
  simpl. rewrite order_keys_eq.
  set (st' := mkTables _ _ _).
  assert (Est : st' = with_order_date st).
  { unfold st', with_order_date. rewrite map_map. reflexivity. }
  rewrite (forM_pure aggregate_group
             (fun g => daily_record_of (fst g) (rows (snd g))
                         (rows (payments_df st)) (rows (refunds_df st)))).
  - rewrite Est. do 3 f_equal. unfold groupby. rewrite map_map. apply map_ext.
    intros k. simpl. rewrite mask_filter_map2. reflexivity.
  - intros [k grp] Hin. unfold groupby in Hin. apply in_map_iff in Hin.
    destruct Hin as (k' & [= <- <-] & _).
    apply (aggregate_group_ok k' _ st'); [|exact Hp|exact Hr].
    intros c Hc. apply (has_columns_set_col ["created_at"; "vendor"; "order_id"] _ _ _ Ho).
    simpl in Hc. simpl. intuition.
Qed.

(** ** Group keys *)

Lemma key_compare_refl (a : group_key) : key_compare a a = Eq.
Proof.
  unfold key_compare. rewrite Z.compare_refl.
  apply String_as_OT.cmp_eq. reflexivity.
Qed.

Lemma key_compare_eq (a b : group_key) : key_compare a b = Eq -> a = b.
Proof.
  destruct a as [d v], b as [d' v']. unfold key_compare. simpl.
  destruct (Z.compare d d') eqn:E; try discriminate.
  apply Z.compare_eq in E. intros Hs. apply String.compare_eq_iff in Hs. congruence.
Qed.

Lemma key_eqb_eq (a b : group_key) : key_eqb a b = true <-> a = b.
Proof.
  destruct a as [d v], b as [d' v']. unfold key_eqb. simpl.
  rewrite andb_true_iff, Z.eqb_eq, String.eqb_eq. split; [intros []|intros [=]]; subst; auto.
Qed.

Lemma key_lt_trans (a b c : group_key) : key_lt a b -> key_lt b c -> key_lt a c.
Proof.
  destruct a as [d1 v1], b as [d2 v2], c as [d3 v3]. unfold key_lt, key_compare. simpl.
  destruct (Z.compare d1 d2) eqn:E12; try discriminate;
  destruct (Z.compare d2 d3) eqn:E23; try discriminate; intros H1 H2.
  - apply Z.compare_eq in E12, E23. subst. rewrite Z.compare_refl.
    apply String_as_OT.cmp_lt. apply String_as_OT.cmp_lt in H1, H2.
    eapply String_as_OT.lt_trans; eassumption.
  - apply Z.compare_eq in E12. subst. rewrite E23. reflexivity.
  - apply Z.compare_eq in E23. subst. rewrite E12. reflexivity.
  - rewrite Z.compare_lt_iff in E12, E23.
    assert (E : (d1 ?= d3)%Z = Lt) by (apply Z.compare_lt_iff; lia).
    rewrite E. reflexivity.
Qed.

Lemma key_compare_gt (a b : group_key) : key_compare a b = Gt -> key_lt b a.
Proof.
  destruct a as [d v], b as [d' v']. unfold key_lt, key_compare. simpl. intros Hgt.
  rewrite (Z.compare_antisym d d'), (String.compare_antisym v' v).
  destruct (Z.compare d d'), (String.compare v v'); simpl in *; congruence.
Qed.

Lemma insert_key_In (k k' : group_key) (s : list group_key) :
  In k (insert_key k' s) <-> k = k' \/ In k s.
Proof.
  induction s as [|a s IH]; simpl; [intuition|].
  destruct (key_compare k' a) eqn:E; simpl.
  - apply key_compare_eq in E. subst. intuition.
  - intuition.
  - rewrite IH. intuition.
Qed.

Lemma insert_key_sorted (k : group_key) (s : list group_key) :
  StronglySorted key_lt s -> StronglySorted key_lt (insert_key k s).
Proof.
  induction 1 as [|a s Hs IH Ha]; simpl.
  - repeat constructor.
  - destruct (key_compare k a) eqn:E.
    + constructor; assumption.
    + constructor; [constructor; assumption|].
      constructor; [exact E|]. eapply List.Forall_impl; [|exact Ha].
      intros b Hb. eapply key_lt_trans; eassumption.
    + constructor; [exact IH|]. apply List.Forall_forall. intros b Hb.
      apply insert_key_In in Hb. destruct Hb as [->|Hb].
      * apply key_compare_gt, E.
      * rewrite List.Forall_forall in Ha. apply Ha, Hb.
Qed.

Lemma group_keys_In (k : group_key) (keys : list (option group_key)) :
  In k (group_keys keys) <-> In (Some k) keys.
Proof.
  induction keys as [|[k'|] keys IH]; simpl; [tauto| |].
  - rewrite insert_key_In, IH. intuition congruence.
  - rewrite IH. intuition congruence.
Qed.

Lemma group_keys_sorted (keys : list (option group_key)) :
  StronglySorted key_lt (group_keys keys).
Proof.
  induction keys as [|[k|] keys IH]; simpl;
    [constructor | apply insert_key_sorted, IH | exact IH].
Qed.




(** ** C1: what the daily aggregator computes *)

Lemma rows_from_records {R : Type} (keys : list string) (l : list R) :
  rows (from_records keys l) = l.
Proof. destruct l; reflexivity. Qed.

Lemma daily_key_record (orders : list order_row) (payments : list payment_row)
    (refunds : list refund_row) (k : group_key) :
  daily_key (daily_record orders payments refunds k) = k.
Proof. destruct k. reflexivity. Qed.





(** ** C9: orders without a timestamp *)

Lemma has_key_dated (k : group_key) (o : order_row) :
  has_key k (order_key o) = true -> has_date o = true.
Proof.
  unfold order_key, has_date. destruct (o_created_at o); [reflexivity|]. discriminate.
Qed.

Lemma group_keys_dated (l : list order_row) :
  group_keys (map order_key (List.filter has_date l)) = group_keys (map order_key l).
Proof.
  induction l as [|o l IH]; simpl; [reflexivity|].
  destruct (has_date o) eqn:E; simpl; rewrite IH; [reflexivity|].
  unfold order_key, has_date in *. destruct (o_created_at o); [discriminate|]. reflexivity.
Qed.

Lemma group_of_dated (k : group_key) (l : list order_row) :
  group_of k (List.filter has_date l) = group_of k l.
Proof.
  unfold group_of. induction l as [|o l IH]; simpl; [reflexivity|].
  destruct (has_date o) eqn:E; simpl; rewrite IH; [reflexivity|].
  destruct (has_key k (order_key o)) eqn:Ek; [|reflexivity].
  apply has_key_dated in Ek. congruence.
Qed.

Lemma group_of_subset_dated (k : group_key) (l : list order_row) (o : order_row) :
  In o (group_of k l) -> In o (List.filter has_date l).
Proof.
  unfold group_of. rewrite !filter_In. intros [Hin Hk]. split; [exact Hin|].
  eapply has_key_dated, Hk.
Qed.

Lemma isin_subset (v : pyval) (xs ys : list pyval) :
  (forall x, In x xs -> In x ys) -> isin v xs = true -> isin v ys = true.
Proof.
  unfold isin. rewrite !existsb_exists. intros Hsub (x & Hx & Hv). eauto.
Qed.

Lemma filter_filter_implied {A : Type} (p q : A -> bool) (l : list A) :
  (forall x, p x = true -> q x = true) ->
  List.filter p (List.filter q l) = List.filter p l.
Proof.
  intros Hpq. induction l as [|x l IH]; simpl; [reflexivity|].
  destruct (q x) eqn:Eq; simpl; rewrite IH; [reflexivity|].
  destruct (p x) eqn:Ep; [|reflexivity]. apply Hpq in Ep. congruence.
Qed.

Lemma daily_record_drop_unmatched (st : tables) (k : group_key) :
  daily_record (rows (orders_df st))
    (List.filter (fun p => isin (p_order_id p) (dated_order_ids st)) (rows (payments_df st)))
    (List.filter (fun r => isin (r_order_id r) (dated_order_ids st)) (rows (refunds_df st))) k =
  daily_record (rows (orders_df st)) (rows (payments_df st)) (rows (refunds_df st)) k.
Proof.
  unfold daily_record, daily_record_of, matched_payments, matched_refunds.
  assert (Hsub : forall v, isin v (map o_order_id (group_of k (rows (orders_df st)))) = true ->
                           isin v (dated_order_ids st) = true).
  { intros v. apply isin_subset. intros x Hx. apply in_map_iff in Hx.
    destruct Hx as (o & <- & Ho). apply in_map. eapply group_of_subset_dated, Ho. }
  rewrite !filter_filter_implied by (intros x; apply Hsub). reflexivity.
Qed.

Lemma df_empty_false {R : Type} (df : DataFrame R) :
  df_empty df = false <-> rows df <> [] /\ columns df <> [].
Proof.
  unfold df_empty. destruct (rows df), (columns df); split; intros Hx;
    try discriminate; try reflexivity; try (split; discriminate);
    destruct Hx; congruence.
Qed.

(** C9. With the read columns in place, an order whose [created_at] is
    missing belongs to no group: the aggregate table is the one obtained
    without these orders, every [order_count] counts dated orders only, and
    the payments and refunds that match no dated order can be removed
    without changing any row. *)
Theorem undated_orders_are_excluded (st : tables) :
  aggregator_columns st ->
  snd (build_fact_order_daily (drop_undated_orders st)) = snd (build_fact_order_daily st) /\
  snd (build_fact_order_daily (drop_unmatched st)) = snd (build_fact_order_daily st) /\
  (forall daily r, snd (build_fact_order_daily st) = Ok daily -> In r (rows daily) ->
     d_order_count r =
       len (List.filter (fun o => has_date o && has_key (daily_key r) (order_key o))
              (rows (orders_df st)))).
Proof.
  intros Hcols. pose proof Hcols as (Ho & Hp & Hr).
  destruct (df_empty (orders_df st)) eqn:He.
  - assert (He' : df_empty (orders_df (drop_undated_orders st)) = true).
    { unfold df_empty in *. simpl. destruct (rows (orders_df st)); simpl; [reflexivity|].
      destruct (columns (orders_df st)); [|discriminate].
      destruct (if has_date o then _ else _); reflexivity. }
    rewrite (build_empty _ He'), (build_empty (drop_unmatched st)), (build_empty st) by exact He.
    repeat split. simpl. intros daily r [= <-] [].
  - rewrite (build_ok st Hcols He). simpl. repeat split.
    + destruct (df_empty (orders_df (drop_undated_orders st))) eqn:He'.
      * rewrite (build_empty _ He'). simpl.
        apply df_empty_false in He. destruct He as [_ Hc].
        assert (Hnil : List.filter has_date (rows (orders_df st)) = []).
        { unfold df_empty in He'. simpl in He'.
          destruct (List.filter has_date (rows (orders_df st))); [reflexivity|].
          destruct (columns (orders_df st)); [congruence | discriminate]. }
        rewrite <- group_keys_dated, Hnil. reflexivity.
      * rewrite (build_ok (drop_undated_orders st)); [|repeat split; assumption|exact He'].
        simpl. rewrite group_keys_dated. do 2 f_equal. apply map_ext. intros k.
        unfold daily_record. rewrite group_of_dated. reflexivity.
    + rewrite (build_ok (drop_unmatched st)); [|repeat split; assumption|exact He].
      simpl. do 2 f_equal. apply map_ext. intros k. apply daily_record_drop_unmatched.
    + intros daily r [= <-] Hin. rewrite rows_from_records in Hin.
      apply in_map_iff in Hin. destruct Hin as (k & <- & _).
      rewrite daily_key_record. simpl. unfold group_of. f_equal.
      apply filter_ext. intros o. destruct (has_key k (order_key o)) eqn:Ek.
      * rewrite (has_key_dated _ _ Ek). reflexivity.
      * rewrite andb_false_r. reflexivity.
Qed.

Lemma undated_orders_are_excluded_witness :
  snd (build_fact_order_daily (drop_undated_orders Sample.with_undated_order)) =
    snd (build_fact_order_daily Sample.with_undated_order) /\
  snd (build_fact_order_daily (drop_unmatched Sample.with_undated_order)) =
    snd (build_fact_order_daily Sample.with_undated_order) /\
  snd (build_fact_order_daily Sample.with_undated_order) =
    Ok (mkDataFrame daily_columns
          [mkDaily Sample.jan1_date "vendorX" 10 3 7 1 1 (Some 1%Q) (Some (3 # 10))] []).
Proof.
  destruct (undated_orders_are_excluded Sample.with_undated_order) as (H1 & H2 & _).
  - repeat split; intros c Hc; simpl in Hc;
      repeat (destruct Hc as [<-|Hc]; [reflexivity|]); destruct Hc.
  - split; [exact H1|]. split; [exact H2|]. vm_compute. reflexivity.
Defined.

(** ** C10: what the consumers write to the tables *)




(** ** C3: empty input *)

(** C3 (amended). On an empty event sequence each normalizer returns,
    without raising, the table that has no rows and no columns; on an
    orders table without rows the aggregator returns that same table,
    whatever the payments and refunds tables hold, and writes nothing. *)
Theorem empty_input_gives_bare_table :
  (forall H : Coercions,
     normalize_orders [] = Ok (mkDataFrame [] [] []) /\
     normalize_payments [] = Ok (mkDataFrame [] [] []) /\
     normalize_refunds [] = Ok (mkDataFrame [] [] [])) /\
  (forall st : tables,
     rows (orders_df st) = [] ->
     build_fact_order_daily st = (st, Ok (mkDataFrame [] [] []))).
Proof.
  split; [intros H; repeat split; reflexivity|].
  intros st Hrows. apply build_empty. unfold df_empty. rewrite Hrows. reflexivity.
Qed.

Lemma empty_input_gives_bare_table_witness :
  let st := mkTables (mkDataFrame order_columns [] [])
              (payments_df Sample.two_orders) (refunds_df Sample.two_orders) in
  build_fact_order_daily st = (st, Ok (mkDataFrame [] [] [])).
Proof.
  intros st. apply (proj2 empty_input_gives_bare_table st). reflexivity.
Defined.

(** The table of an empty input does not carry the canonical columns. *)
Lemma empty_table_has_no_schema :
  (exists df, normalize_orders (H := Reference.reference) [] = Ok df /\
              rows df = [] /\ columns df = [] /\ columns df <> order_columns) /\
  (exists df, normalize_payments (H := Reference.reference) [] = Ok df /\
              rows df = [] /\ columns df = [] /\ columns df <> payment_columns) /\
  (exists df, normalize_refunds (H := Reference.reference) [] = Ok df /\
              rows df = [] /\ columns df = [] /\ columns df <> refund_columns).
Proof.
  repeat split; eexists; (split; [reflexivity|]); simpl; repeat split; discriminate.
Qed.

(** ** C4: ratios with a zero denominator *)


Lemma col_inv {R A : Type} (c : string) (f : R -> A) (df : DataFrame R) (l : list A) :
  col c f df = Ok l -> l = map f (rows df).
Proof. unfold col. destruct (str_in c (columns df)); [|discriminate]. congruence. Qed.





(** ** C7: the two gross revenues *)




(** ** C2: the amount field *)

Lemma drop_duplicates_from_In {R : Type} (key : R -> pyval) (x : R) (l : list R) :
  forall seen, In x (drop_duplicates_from key seen l) -> In x l.
Proof.
  induction l as [|y l IH]; intros seen; simpl; [tauto|].
  destruct (existsb (py_eqb (key y)) seen); simpl; [eauto|].
  intros [->|Hx]; eauto.
Qed.

Section Amounts.

Context `{Coercions}.

Lemma normalize_payments_rows (events : list event) (df : DataFrame payment_row) :
  normalize_payments events = Ok df ->
  exists rs, mapM payment_record events = Ok rs /\
             rows df = drop_duplicates p_payment_id rs.
Proof.
  destruct events as [|e es].
  - intros [= <-]. exists []. split; reflexivity.
  - rewrite normalize_payments_nonempty by discriminate.
    unfold mbind, result_bind.
    destruct (mapM payment_record (e :: es)) as [rs|] eqn:E; [|discriminate].
    intros [= <-]. exists rs. split; [reflexivity|].
    rewrite from_records_cons; [reflexivity|].
    eapply mapM_nonempty; [exact E | discriminate].
Qed.

Lemma normalize_refunds_rows (events : list event) (df : DataFrame refund_row) :
  normalize_refunds events = Ok df ->
  exists rs, mapM refund_record events = Ok rs /\
             rows df = drop_duplicates r_refund_id rs.
Proof.
  destruct events as [|e es].
  - intros [= <-]. exists []. split; reflexivity.
  - rewrite normalize_refunds_nonempty by discriminate.
    unfold mbind, result_bind.
    destruct (mapM refund_record (e :: es)) as [rs|] eqn:E; [|discriminate].
    intros [= <-]. exists rs. split; [reflexivity|].
    rewrite from_records_cons; [reflexivity|].
    eapply mapM_nonempty; [exact E | discriminate].
Qed.

(** [float(amount) if amount else 0.0] on the values it accepts. *)
Lemma amount_or_zero_spec (amount : pyval) (a : Q) :
  amount_or_zero amount = Ok a ->
  (truthy amount = false -> a = 0%Q) /\
  (forall q, amount = VNum q -> a == q) /\
  (forall s, amount = VStr s -> s <> "" -> float_of_str s = Some a).
Proof.
  unfold amount_or_zero. destruct (truthy amount) eqn:Et.
  - intros Hf. split; [discriminate|]. split.
    + intros q ->. simpl in Hf. injection Hf as <-. reflexivity.
    + intros s -> _. simpl in Hf. destruct (float_of_str s); congruence.
  - intros [= <-]. split; [reflexivity|]. split.
    + intros q ->. simpl in Et. apply negb_false_iff, Qeq_bool_iff in Et.
      symmetry. exact Et.
    + intros s -> Hs. simpl in Et. apply negb_false_iff, String.eqb_eq in Et. congruence.
Qed.

Lemma amount_or_zero_rejects (s : string) :
  s <> "" -> float_of_str s = None -> amount_or_zero (VStr s) = Raise ValueError.
Proof.
  intros Hs Hf. unfold amount_or_zero. simpl.
  destruct (String.eqb s "") eqn:E; [apply String.eqb_eq in E; congruence|].
  simpl. rewrite Hf. reflexivity.
Qed.

Lemma payment_record_amount (e : event) (r : payment_row) :
  payment_record e = Ok r ->
  amount_or_zero (payment_amount_field (ev_payload e)) = Ok (p_payment_amount r).
Proof.
  unfold payment_record, mbind, result_bind.
  destruct (canonical_status _); [|discriminate].
  destruct (amount_or_zero _); [|discriminate]. intros [= <-]. reflexivity.
Qed.

Lemma refund_record_amount (e : event) (r : refund_row) :
  refund_record e = Ok r ->
  amount_or_zero (refund_amount_field (ev_payload e)) = Ok (r_refund_amount r).
Proof.
  unfold refund_record, mbind, result_bind.
  destruct (amount_or_zero _); [|discriminate]. intros [= <-]. reflexivity.
Qed.

Lemma order_record_amount (e : event) (r : order_row) :
  order_record e = Ok r ->
  float (get_default (ev_payload e) "totalAmount" (VNum 0)) = Ok (o_order_amount r).
Proof.
  unfold order_record, mbind, result_bind.
  destruct (float _); [|discriminate]. intros [= <-]. reflexivity.
Qed.

End Amounts.

(** C2 (amended). Every row of a normalized table is the record of an
    input event.  For payments and refunds a missing or falsy amount
    (absent, null, 0, empty string, false) becomes 0.0, a number is kept
    with its sign, and a non-empty string is converted by [float]; for
    orders an absent [totalAmount] becomes 0.0 and a number is kept with
    its sign.  No amount is made non-negative, and an amount string that
    [float] rejects makes the normalizer raise: no table is returned. *)
Theorem amount_coercion `{Coercions} :
  (forall events df r,
     normalize_payments events = Ok df -> In r (rows df) ->
     exists e, In e events /\ payment_record e = Ok r /\
       let amount := payment_amount_field (ev_payload e) in
       (truthy amount = false -> p_payment_amount r = 0%Q) /\
       (forall q, amount = VNum q -> p_payment_amount r == q) /\
       (forall s, amount = VStr s -> s <> "" -> float_of_str s = Some (p_payment_amount r))) /\
  (forall events df r,
     normalize_refunds events = Ok df -> In r (rows df) ->
     exists e, In e events /\ refund_record e = Ok r /\
       let amount := refund_amount_field (ev_payload e) in
       (truthy amount = false -> r_refund_amount r = 0%Q) /\
       (forall q, amount = VNum q -> r_refund_amount r == q) /\
       (forall s, amount = VStr s -> s <> "" -> float_of_str s = Some (r_refund_amount r))) /\
  (forall events df r,
     normalize_orders events = Ok df -> In r (rows df) ->
     exists e, In e events /\ order_record e = Ok r /\
       (ev_payload e !! "totalAmount" = None -> o_order_amount r = 0%Q) /\
       (forall q, ev_payload e !! "totalAmount" = Some (VNum q) -> o_order_amount r = q)) /\
  (forall events e s,
     In e events -> s <> "" -> float_of_str s = None ->
     (payment_amount_field (ev_payload e) = VStr s ->
      forall df, normalize_payments events <> Ok df) /\
     (refund_amount_field (ev_payload e) = VStr s ->
      forall df, normalize_refunds events <> Ok df) /\
     (ev_payload e !! "totalAmount" = Some (VStr s) ->
      forall df, normalize_orders events <> Ok df)).
Proof.
  split; [|split; [|split]].
  - intros events df r Hn Hr.
    destruct (normalize_payments_rows _ _ Hn) as (rs & Hrs & Hrows).
    rewrite Hrows in Hr. apply drop_duplicates_from_In in Hr.
    destruct (mapM_In _ _ _ _ Hrs Hr) as (e & He & Her).
    exists e. split; [exact He|]. split; [exact Her|].
    apply amount_or_zero_spec, payment_record_amount, Her.
  - intros events df r Hn Hr.
    destruct (normalize_refunds_rows _ _ Hn) as (rs & Hrs & Hrows).
    rewrite Hrows in Hr. apply drop_duplicates_from_In in Hr.
    destruct (mapM_In _ _ _ _ Hrs Hr) as (e & He & Her).
    exists e. split; [exact He|]. split; [exact Her|].
    apply amount_or_zero_spec, refund_record_amount, Her.
  - intros events df r Hn Hr.
    destruct (normalize_orders_rows _ _ Hn) as (rs & Hrs & Hrows).
    rewrite Hrows in Hr. apply drop_duplicates_last_In in Hr. rewrite sort_values_In in Hr.
    destruct (mapM_In _ _ _ _ Hrs Hr) as (e & He & Her).
    exists e. split; [exact He|]. split; [exact Her|].
    apply order_record_amount in Her. unfold get_default in Her.
    split; intros; match goal with Hq : _ !! _ = _ |- _ => rewrite Hq in Her end;
      simpl in Her; congruence.
  - intros events e s He Hs Hf. repeat split.
    + intros Ha df Hn. destruct (normalize_payments_rows _ _ Hn) as (rs & Hrs & _).
      destruct (mapM_In_inv _ _ _ _ Hrs He) as (r & _ & Her).
      apply payment_record_amount in Her.
      rewrite Ha, (amount_or_zero_rejects s Hs Hf) in Her. discriminate.
    + intros Ha df Hn. destruct (normalize_refunds_rows _ _ Hn) as (rs & Hrs & _).
      destruct (mapM_In_inv _ _ _ _ Hrs He) as (r & _ & Her).
      apply refund_record_amount in Her.
      rewrite Ha, (amount_or_zero_rejects s Hs Hf) in Her. discriminate.
    + intros Ha df Hn. destruct (normalize_orders_rows _ _ Hn) as (rs & Hrs & _).
      destruct (mapM_In_inv _ _ _ _ Hrs He) as (r & _ & Her).
      apply order_record_amount in Her. unfold get_default in Her.
      rewrite Ha in Her. simpl in Her. rewrite Hf in Her. discriminate.
Qed.

Lemma amount_coercion_witness :
  let e := Sample.payment_event "p1" "A" "success" (VNum (-5)) in
  let r := Sample.payment "p1" "A" "success" (-5) in
  normalize_payments (H := Reference.reference) [e] =
    Ok (mkDataFrame payment_columns [r] []) /\
  exists e', In e' [e] /\ payment_record (H := Reference.reference) e' = Ok r /\
             (forall q, payment_amount_field (ev_payload e') = VNum q -> p_payment_amount r == q).
Proof.
  intros e r. split; [reflexivity|].
  destruct (proj1 (amount_coercion (H := Reference.reference)) [e]
              (mkDataFrame payment_columns [r] []) r) as (e' & He' & Hr & _ & Hq & _).
  - reflexivity.
  - simpl. auto.
  - exists e'. auto.
Defined.

(** A negative amount stays negative, and an amount that is not a number
    stops the normalizer. *)
Lemma amount_not_coerced :
  (normalize_payments (H := Reference.reference)
     [Sample.payment_event "p1" "A" "success" (VNum (-5))] =
     Ok (mkDataFrame payment_columns [Sample.payment "p1" "A" "success" (-5)] []) /\
   (p_payment_amount (Sample.payment "p1" "A" "success" (-5)) < 0)%Q) /\
  normalize_payments (H := Reference.reference)
    [Sample.payment_event "p1" "A" "success" (VStr "abc")] = Raise ValueError /\
  normalize_refunds (H := Reference.reference)
    [Sample.refund_event "r1" "A" (VStr "abc")] = Raise ValueError /\
  normalize_orders (H := Reference.reference)
    [mkEvent (Some "e1") (Some "order_created") (Some "vendorX")
       (<["order_id" := VStr "A"]> (<["totalAmount" := VStr "abc"]> ∅))] = Raise ValueError.
Proof.
  repeat split.
Qed.

(** ** C6: the status vocabulary *)


Lemma canonical_status_str (s : string) :
  s <> "" ->
  canonical_status (VStr s) =
  Ok (VStr (if str_in (lower s) ["failed"; "fail"; "error"] then "failed"
            else if str_in (lower s) ["success"; "successful"; "completed"; "paid"]
                 then "success"
                 else lower s)).
Proof.
  intros Hs. unfold canonical_status. simpl truthy.
  destruct (String.eqb s "") eqn:E; [apply String.eqb_eq in E; congruence|].
  simpl negb. cbv iota.
  destruct (str_in (lower s) ["failed"; "fail"; "error"]); [reflexivity|].
  destruct (str_in (lower s) ["success"; "successful"; "completed"; "paid"]); reflexivity.
Qed.




(** * Further properties of the pipeline *)

(** ** Normalizers: shape, order and first-seen rows *)

Lemma seen_after_inv {R : Type} (key : R -> pyval) (k : pyval) (l : list R) :
  forall seen,
  existsb (py_eqb k) (seen_after key seen l) = true ->
  existsb (py_eqb k) seen = true \/ exists y, In y l /\ py_eqb k (key y) = true.
Proof.
  induction l as [|x l IH]; intros seen; simpl; [auto|].
  destruct (existsb (py_eqb (key x)) seen).
  - intros Hk. destruct (IH _ Hk) as [Hs|(y & Hy & Hky)]; [auto|]. right. eauto.
  - intros Hk. destruct (IH _ Hk) as [Hs|(y & Hy & Hky)].
    + simpl in Hs. apply orb_true_iff in Hs. destruct Hs as [Hs|Hs]; [|auto].
      right. exists x. auto.
    + right. eauto.
Qed.

Lemma drop_duplicates_from_unseen {R : Type} (key : R -> pyval) (l : list R) :
  forall seen x, In x (drop_duplicates_from key seen l) ->
                 existsb (py_eqb (key x)) seen = false.
Proof.
  induction l as [|y l IH]; intros seen x; simpl; [tauto|].
  destruct (existsb (py_eqb (key y)) seen) eqn:E; [apply IH|].
  intros [<-|Hx]; [exact E|]. apply IH in Hx. simpl in Hx.
  apply orb_false_iff in Hx. tauto.
Qed.

Lemma drop_duplicates_from_distinct {R : Type} (key : R -> pyval) (l : list R) :
  forall seen,
  ForallOrdPairs (fun x y => py_eqb (key x) (key y) = false)
    (drop_duplicates_from key seen l).
Proof.
  induction l as [|x l IH]; intros seen; simpl; [constructor|].
  destruct (existsb (py_eqb (key x)) seen); [apply IH|].
  constructor; [|apply IH]. apply List.Forall_forall. intros y Hy.
  apply drop_duplicates_from_unseen in Hy. simpl in Hy.
  apply orb_false_iff in Hy. rewrite py_eqb_sym. tauto.
Qed.

Lemma drop_duplicates_from_covers {R : Type} (key : R -> pyval) (l : list R) :
  forall seen x, In x l ->
    existsb (py_eqb (key x)) seen = true \/
    exists y, In y (drop_duplicates_from key seen l) /\ py_eqb (key x) (key y) = true.
Proof.
  induction l as [|a l IH]; intros seen x; simpl; [tauto|].
  intros [->|Hx].
  - destruct (existsb (py_eqb (key x)) seen) eqn:E; [auto|].
    right. exists x. split; [left; reflexivity | apply py_eqb_refl].
  - destruct (existsb (py_eqb (key a)) seen) eqn:E.
    + apply IH, Hx.
    + destruct (IH (key a :: seen) x Hx) as [Hs|(y & Hy & Hxy)].
      * simpl in Hs. apply orb_true_iff in Hs. destruct Hs as [Hs|Hs]; [|auto].
        right. exists a. split; [left; reflexivity | exact Hs].
      * right. exists y. split; [right; exact Hy | exact Hxy].
Qed.

(** The first row of a key is kept. *)
Lemma drop_duplicates_keeps_first {R : Type} (key : R -> pyval) (l1 l2 : list R) (x : R) :
  (forall y, In y l1 -> py_eqb (key y) (key x) = false) ->
  In x (drop_duplicates key (l1 ++ x :: l2)).
Proof.
  intros Hfirst. unfold drop_duplicates. rewrite drop_duplicates_from_app.
  apply in_or_app. right. simpl.
  destruct (existsb (py_eqb (key x)) (seen_after key [] l1)) eqn:E; [|left; reflexivity].
  apply seen_after_inv in E. destruct E as [E|(y & Hy & Hxy)]; [discriminate|].
  rewrite py_eqb_sym, (Hfirst y Hy) in Hxy. discriminate.
Qed.

Lemma mapM_split {A B : Type} (f : A -> result B) (l1 l2 : list A) (x : A) (ys : list B) :
  mapM f (l1 ++ x :: l2) = Ok ys ->
  exists ys1 y ys2, ys = ys1 ++ y :: ys2 /\ mapM f l1 = Ok ys1 /\ f x = Ok y /\
                    mapM f l2 = Ok ys2.
Proof.
  rewrite mapM_app. unfold mbind, result_bind.
  destruct (mapM f l1) as [ys1|]; [|discriminate]. simpl. unfold mbind, result_bind.
  destruct (f x) as [y|]; [|discriminate].
  destruct (mapM f l2) as [ys2|]; [|discriminate].
  intros [= <-]. exists ys1, y, ys2. auto.
Qed.

Lemma payment_record_id `{Coercions} (e : event) (r : payment_row) :
  payment_record e = Ok r -> p_payment_id r = payment_id_field (ev_payload e).
Proof.
  unfold payment_record, mbind, result_bind.
  destruct (canonical_status _); [|discriminate].
  destruct (amount_or_zero _); [|discriminate]. intros [= <-]. reflexivity.
Qed.

Lemma refund_record_id `{Coercions} (e : event) (r : refund_row) :
  refund_record e = Ok r -> r_refund_id r = refund_id_field (ev_payload e).
Proof.
  unfold refund_record, mbind, result_bind.
  destruct (amount_or_zero _); [|discriminate]. intros [= <-]. reflexivity.
Qed.

(** X1. The payments table has one row per [payment_id], every id of the
    input has a row, and the record of an event that no earlier event shares
    its id with is a row of the table: the first record of an id is the one
    kept. *)
Theorem payments_first_seen_wins `{Coercions} (events : list event) (df : DataFrame payment_row) :
  normalize_payments events = Ok df ->
  ForallOrdPairs (fun r1 r2 => py_eqb (p_payment_id r1) (p_payment_id r2) = false) (rows df) /\
  (forall e, In e events ->
     exists r, In r (rows df) /\
               py_eqb (payment_id_field (ev_payload e)) (p_payment_id r) = true) /\
  (forall l1 e l2 r,
     events = l1 ++ e :: l2 -> payment_record e = Ok r ->
     (forall e', In e' l1 ->
        py_eqb (payment_id_field (ev_payload e')) (payment_id_field (ev_payload e)) = false) ->
     In r (rows df)).
Proof.
  intros Hn. destruct (normalize_payments_rows _ _ Hn) as (rs & Hrs & ->).
  split; [apply drop_duplicates_from_distinct|]. split.
  - intros e He. destruct (mapM_In_inv _ _ _ _ Hrs He) as (r & Hr & Her).
    destruct (drop_duplicates_from_covers p_payment_id rs [] r Hr) as [Hs|(y & Hy & Hxy)];
      [discriminate|].
    exists y. split; [exact Hy|]. rewrite <- (payment_record_id _ _ Her). exact Hxy.
  - intros l1 e l2 r -> Her Hfirst.
    destruct (mapM_split _ _ _ _ _ Hrs) as (ys1 & y & ys2 & -> & H1 & Hy & _).
    assert (y = r) by congruence. subst y.
    apply drop_duplicates_keeps_first. intros r' Hr'.
    destruct (mapM_In _ _ _ _ H1 Hr') as (e' & He' & Her').
    rewrite (payment_record_id _ _ Her'), (payment_record_id _ _ Her). apply Hfirst, He'.
Qed.

(** X2. The refunds table has one row per [refund_id], every id of the
    input has a row, and the first record of an id is the one kept. *)
Theorem refunds_first_seen_wins `{Coercions} (events : list event) (df : DataFrame refund_row) :
  normalize_refunds events = Ok df ->
  ForallOrdPairs (fun r1 r2 => py_eqb (r_refund_id r1) (r_refund_id r2) = false) (rows df) /\
  (forall e, In e events ->
     exists r, In r (rows df) /\
               py_eqb (refund_id_field (ev_payload e)) (r_refund_id r) = true) /\
  (forall l1 e l2 r,
     events = l1 ++ e :: l2 -> refund_record e = Ok r ->
     (forall e', In e' l1 ->
        py_eqb (refund_id_field (ev_payload e')) (refund_id_field (ev_payload e)) = false) ->
     In r (rows df)).
Proof.
  intros Hn. destruct (normalize_refunds_rows _ _ Hn) as (rs & Hrs & ->).
  split; [apply drop_duplicates_from_distinct|]. split.
  - intros e He. destruct (mapM_In_inv _ _ _ _ Hrs He) as (r & Hr & Her).
    destruct (drop_duplicates_from_covers r_refund_id rs [] r Hr) as [Hs|(y & Hy & Hxy)];
      [discriminate|].
    exists y. split; [exact Hy|]. rewrite <- (refund_record_id _ _ Her). exact Hxy.
  - intros l1 e l2 r -> Her Hfirst.
    destruct (mapM_split _ _ _ _ _ Hrs) as (ys1 & y & ys2 & -> & H1 & Hy & _).
    assert (y = r) by congruence. subst y.
    apply drop_duplicates_keeps_first. intros r' Hr'.
    destruct (mapM_In _ _ _ _ H1 Hr') as (e' & He' & Her').
    rewrite (refund_record_id _ _ Her'), (refund_record_id _ _ Her). apply Hfirst, He'.
Qed.

Lemma payments_first_seen_wins_witness :
  let first := Sample.payment_event "p1" "A" "success" (VNum 10) in
  let again := Sample.payment_event "p1" "B" "failed" (VNum 99) in
  normalize_payments (H := Reference.reference) [first; again] =
    Ok (mkDataFrame payment_columns [Sample.payment "p1" "A" "success" 10] []) /\
  In (Sample.payment "p1" "A" "success" 10)
     (rows (mkDataFrame payment_columns [Sample.payment "p1" "A" "success" 10] [])).
Proof.
  intros first again. split; [reflexivity|].
  destruct (payments_first_seen_wins (H := Reference.reference) [first; again]
              (mkDataFrame payment_columns [Sample.payment "p1" "A" "success" 10] []) eq_refl)
    as (_ & _ & Hfirst).
  apply (Hfirst [] first [again]); [reflexivity | reflexivity | intros e' []].
Defined.

Lemma refunds_first_seen_wins_witness :
  let first := Sample.refund_event "r1" "A" (VNum 3) in
  let again := Sample.refund_event "r1" "B" (VNum 7) in
  normalize_refunds (H := Reference.reference) [first; again] =
    Ok (mkDataFrame refund_columns [Sample.refund "r1" "A" 3] []) /\
  In (Sample.refund "r1" "A" 3)
     (rows (mkDataFrame refund_columns [Sample.refund "r1" "A" 3] [])).
Proof.
  intros first again. split; [reflexivity|].
  destruct (refunds_first_seen_wins (H := Reference.reference) [first; again]
              (mkDataFrame refund_columns [Sample.refund "r1" "A" 3] []) eq_refl)
    as (_ & _ & Hfirst).
  apply (Hfirst [] first [again]); [reflexivity | reflexivity | intros e' []].
Defined.

Lemma drop_duplicates_last_sorted {R : Type} (key : R -> option Z) (id : R -> pyval)
    (s : list R) :
  sorted_by key s -> sorted_by key (drop_duplicates_last id s).
Proof.
  unfold sorted_by. induction 1 as [|a s Ha Hs IH]; simpl; [constructor|].
  destruct (existsb _ s); [exact IH|]. constructor; [|exact IH].
  rewrite List.Forall_forall in *. intros y Hy. apply Ha.
  eapply drop_duplicates_last_In, Hy.
Qed.

Section Shapes.

Context `{Coercions}.

Lemma normalize_orders_shape (events : list event) (df : DataFrame order_row) :
  events <> [] -> normalize_orders events = Ok df ->
  exists rs, mapM order_record events = Ok rs /\ rs <> [] /\
    df = mkDataFrame order_columns
           (drop_duplicates_last o_order_id (sort_values o_created_at rs)) [].
Proof.
  intros Hne Hn. rewrite (normalize_orders_nonempty _ Hne) in Hn.
  unfold mbind, result_bind in Hn.
  destruct (mapM order_record events) as [rs|] eqn:E; [|discriminate].
  pose proof (mapM_nonempty _ _ _ E Hne) as Hrs.
  rewrite (from_records_cons _ _ Hrs) in Hn. injection Hn as <-.
  exists rs. auto.
Qed.

Lemma normalize_payments_shape (events : list event) (df : DataFrame payment_row) :
  events <> [] -> normalize_payments events = Ok df ->
  exists rs, mapM payment_record events = Ok rs /\ rs <> [] /\
    df = mkDataFrame payment_columns (drop_duplicates p_payment_id rs) [].
Proof.
  intros Hne Hn. rewrite (normalize_payments_nonempty _ Hne) in Hn.
  unfold mbind, result_bind in Hn.
  destruct (mapM payment_record events) as [rs|] eqn:E; [|discriminate].
  pose proof (mapM_nonempty _ _ _ E Hne) as Hrs.
  rewrite (from_records_cons _ _ Hrs) in Hn. injection Hn as <-.
  exists rs. auto.
Qed.

Lemma normalize_refunds_shape (events : list event) (df : DataFrame refund_row) :
  events <> [] -> normalize_refunds events = Ok df ->
  exists rs, mapM refund_record events = Ok rs /\ rs <> [] /\
    df = mkDataFrame refund_columns (drop_duplicates r_refund_id rs) [].
Proof.
  intros Hne Hn. rewrite (normalize_refunds_nonempty _ Hne) in Hn.
  unfold mbind, result_bind in Hn.
  destruct (mapM refund_record events) as [rs|] eqn:E; [|discriminate].
  pose proof (mapM_nonempty _ _ _ E Hne) as Hrs.
  rewrite (from_records_cons _ _ Hrs) in Hn. injection Hn as <-.
  exists rs. auto.
Qed.

End Shapes.

Lemma drop_duplicates_nonempty {R : Type} (key : R -> pyval) (l : list R) :
  l <> [] -> drop_duplicates key l <> [].
Proof.
  destruct l as [|x l]; [congruence|]. intros _. unfold drop_duplicates. simpl. discriminate.
Qed.

Lemma drop_duplicates_last_nonempty {R : Type} (key : R -> pyval) (l : list R) :
  l <> [] -> drop_duplicates_last key l <> [].
Proof.
  destruct l as [|x l]; [congruence|]. intros _ Hnil.
  destruct (drop_duplicates_last_covers key (x :: l) x (or_introl eq_refl)) as (y & Hy & _).
  rewrite Hnil in Hy. exact Hy.
Qed.

Lemma sort_values_nonempty {R : Type} (key : R -> option Z) (l : list R) :
  l <> [] -> sort_values key l <> [].
Proof.
  destruct l as [|x l]; [congruence|]. intros _ Hnil.
  assert (Hx : In x (sort_values key (x :: l))) by (apply sort_values_In; left; reflexivity).
  rewrite Hnil in Hx. exact Hx.
Qed.

(** X3. A normalizer that returns for a non-empty input returns a table
    with at least one row, exactly its canonical columns and no assigned
    column. *)
Theorem normalized_tables_have_schema `{Coercions} (events : list event) :
  events <> [] ->
  (forall df, normalize_orders events = Ok df ->
     columns df = order_columns /\ rows df <> [] /\ assigned df = []) /\
  (forall df, normalize_payments events = Ok df ->
     columns df = payment_columns /\ rows df <> [] /\ assigned df = []) /\
  (forall df, normalize_refunds events = Ok df ->
     columns df = refund_columns /\ rows df <> [] /\ assigned df = []).
Proof.
  intros Hne. split; [|split]; intros df Hn.
  - destruct (normalize_orders_shape _ _ Hne Hn) as (rs & _ & Hrs & ->). simpl.
    repeat split. apply drop_duplicates_last_nonempty, sort_values_nonempty, Hrs.
  - destruct (normalize_payments_shape _ _ Hne Hn) as (rs & _ & Hrs & ->). simpl.
    repeat split. apply drop_duplicates_nonempty, Hrs.
  - destruct (normalize_refunds_shape _ _ Hne Hn) as (rs & _ & Hrs & ->). simpl.
    repeat split. apply drop_duplicates_nonempty, Hrs.
Qed.

Lemma normalized_tables_have_schema_witness :
  exists df,
    normalize_orders (H := Reference.reference)
      [Sample.order_event "A" (VStr "2024-01-01") "vendorX"] = Ok df /\
    columns df = order_columns /\ rows df <> [] /\ assigned df = [].
Proof.
  destruct (normalize_orders (H := Reference.reference)
              [Sample.order_event "A" (VStr "2024-01-01") "vendorX"]) as [df|x] eqn:E;
    [|vm_compute in E; discriminate E].
  exists df. split; [reflexivity|].
  apply (proj1 (normalized_tables_have_schema (H := Reference.reference)
                  [Sample.order_event "A" (VStr "2024-01-01") "vendorX"]
                  ltac:(discriminate)) df E).
Defined.

(** X4. The rows of the orders table are in ascending order of
    [created_at], the rows without timestamp first. *)
Theorem orders_table_is_sorted `{Coercions} (events : list event) (df : DataFrame order_row) :
  normalize_orders events = Ok df -> sorted_by o_created_at (rows df).
Proof.
  intros Hn. destruct (normalize_orders_rows _ _ Hn) as (rs & _ & ->).
  apply drop_duplicates_last_sorted, sort_values_sorted.
Qed.

Lemma orders_table_is_sorted_witness :
  sorted_by o_created_at
    [Sample.order "U" None "vendorX"; Sample.order "A" (Some Sample.jan1) "vendorX"].
Proof.
  apply (orders_table_is_sorted (H := Reference.reference)
           [Sample.order_event "A" (VStr "2024-01-01") "vendorX";
            Sample.order_event "U" VNone "vendorX"]
           (mkDataFrame order_columns
              [Sample.order "U" None "vendorX"; Sample.order "A" (Some Sample.jan1) "vendorX"] [])).
  reflexivity.
Defined.

Lemma pairwise_equal_keys_one_row {R : Type} (key : R -> pyval) (l : list R) :
  ForallOrdPairs (fun x y => py_eqb (key x) (key y) = false) l ->
  (forall x y, In x l -> In y l -> py_eqb (key x) (key y) = true) ->
  l <> [] -> exists r, l = [r].
Proof.
  intros Hd Heq Hne. destruct l as [|a [|b l]]; [congruence | eauto |].
  inversion Hd as [|? ? Ha _]; subst. rewrite List.Forall_forall in Ha.
  specialize (Ha b (or_introl eq_refl)).
  rewrite (Heq a b) in Ha; [discriminate | left; reflexivity | right; left; reflexivity].
Qed.

(** X5. When no event of a non-empty input carries an [order_id], all the
    events are taken for one order: the orders table that is returned has a
    single row, without id, whatever the number of events. *)
Theorem orders_without_id_collapse `{Coercions} (events : list event) (df : DataFrame order_row) :
  events <> [] ->
  (forall e, In e events -> get (ev_payload e) "order_id" = VNone) ->
  normalize_orders events = Ok df ->
  exists r, rows df = [r] /\ o_order_id r = VNone.
Proof.
  intros Hne Hnone Hn.
  destruct (normalize_orders_shape _ _ Hne Hn) as (rs & Hrs & Hrsne & ->). simpl.
  assert (Hkeys : forall r, In r (drop_duplicates_last o_order_id (sort_values o_created_at rs)) ->
                            o_order_id r = VNone).
  { intros r Hr. apply drop_duplicates_last_In in Hr. rewrite sort_values_In in Hr.
    destruct (mapM_In _ _ _ _ Hrs Hr) as (e & He & Her).
    rewrite (order_record_order_id _ _ Her). apply Hnone, He. }
  destruct (pairwise_equal_keys_one_row o_order_id
              (drop_duplicates_last o_order_id (sort_values o_created_at rs))) as (r & Hr).
  - apply drop_duplicates_last_distinct.
  - intros x y Hx Hy. rewrite (Hkeys x Hx), (Hkeys y Hy). reflexivity.
  - apply drop_duplicates_last_nonempty, sort_values_nonempty, Hrsne.
  - exists r. split; [exact Hr|]. apply Hkeys. rewrite Hr. left. reflexivity.
Qed.

Lemma orders_without_id_collapse_witness :
  let e1 := mkEvent (Some "e1") (Some "historical_order") (Some "v1")
              (<["id" := VStr "o-1"]> (<["totalAmount" := VNum 10]> ∅)) in
  let e2 := mkEvent (Some "e2") (Some "historical_order") (Some "v2")
              (<["id" := VStr "o-2"]> (<["totalAmount" := VNum 20]> ∅)) in
  exists df r, normalize_orders (H := Reference.reference) [e1; e2] = Ok df /\
               rows df = [r] /\ o_order_id r = VNone.
Proof.
  intros e1 e2.
  destruct (normalize_orders (H := Reference.reference) [e1; e2]) as [df|] eqn:E;
    [|vm_compute in E; discriminate].
  destruct (orders_without_id_collapse (H := Reference.reference) [e1; e2] df) as (r & Hr).
  - discriminate.
  - intros e [<-|[<-|[]]]; reflexivity.
  - exact E.
  - exists df, r. split; [reflexivity | exact Hr].
Defined.

(** ** Normalizers: status and amount edge cases *)

Lemma lower_ascii_idem (c : ascii) : lower_ascii (lower_ascii c) = lower_ascii c.
Proof.
  destruct c as [[] [] [] [] [] [] [] []]; reflexivity.
Qed.

Lemma lower_idem (s : string) : lower (lower s) = lower s.
Proof.
  induction s as [|c s IH]; simpl; [reflexivity|].
  rewrite lower_ascii_idem, IH. reflexivity.
Qed.

(** X6. Canonicalizing a status string that is already canonical changes
    nothing: the canonical form of a string is a fixed point of the
    canonicalization. *)
Theorem canonical_status_idempotent (s t : string) :
  canonical_status (VStr s) = Ok (VStr t) ->
  canonical_status (VStr t) = Ok (VStr t).
Proof.
  destruct s as [|c s].
  - intros [= <-]. reflexivity.
  - rewrite canonical_status_str by discriminate.
    assert (Hu : lower (String c s) <> "") by (simpl; discriminate).
    assert (Hl : lower (lower (String c s)) = lower (String c s)) by apply lower_idem.
    revert Hu Hl. generalize (lower (String c s)). intros u Hu Hl.
    destruct (str_in u ["failed"; "fail"; "error"]) eqn:E1.
    { intros [= <-]. reflexivity. }
    destruct (str_in u ["success"; "successful"; "completed"; "paid"]) eqn:E2.
    { intros [= <-]. reflexivity. }
    intros [= <-]. rewrite (canonical_status_str u Hu), Hl, E1, E2. reflexivity.
Qed.

Lemma canonical_status_idempotent_witness :
  canonical_status (VStr "Pending") = Ok (VStr "pending") /\
  canonical_status (VStr "pending") = Ok (VStr "pending").
Proof.
  split; [reflexivity|].
  apply (canonical_status_idempotent "Pending" "pending"). reflexivity.
Defined.

Lemma canonical_status_not_str (v : pyval) :
  truthy v = true -> (forall s, v <> VStr s) -> canonical_status v = Raise AttributeError.
Proof.
  intros Ht Hs. unfold canonical_status. rewrite Ht.
  destruct v; try reflexivity; try discriminate. exfalso. eapply Hs. reflexivity.
Qed.

(** X7. A payment event whose resolved status is truthy but not a string
    (a non-zero number, [true]) stops the payments normalizer: the call of
    [lower] raises and no table is returned. *)
Theorem non_string_status_aborts `{Coercions} (events : list event) (e : event) :
  In e events ->
  truthy (payment_status_field (ev_payload e)) = true ->
  (forall s, payment_status_field (ev_payload e) <> VStr s) ->
  payment_record e = Raise AttributeError /\
  forall df, normalize_payments events <> Ok df.
Proof.
  intros He Ht Hs.
  assert (Hr : payment_record e = Raise AttributeError).
  { unfold payment_record, mbind, result_bind.
    rewrite (canonical_status_not_str _ Ht Hs). reflexivity. }
  split; [exact Hr|]. intros df Hn.
  destruct (normalize_payments_rows _ _ Hn) as (rs & Hrs & _).
  destruct (mapM_In_inv _ _ _ _ Hrs He) as (r & _ & Her). congruence.
Qed.

Lemma non_string_status_aborts_witness :
  let e := mkEvent (Some "e1") (Some "payment_attempt") (Some "vendorX")
             (<["payment_id" := VStr "p1"]> (<["status" := VNum 1]> ∅)) in
  normalize_payments (H := Reference.reference) [e] = Raise AttributeError /\
  payment_record (H := Reference.reference) e = Raise AttributeError.
Proof.
  intros e. split; [reflexivity|].
  apply (non_string_status_aborts (H := Reference.reference) [e] e).
  - left. reflexivity.
  - reflexivity.
  - intros s. discriminate.
Defined.

(** X8. For the orders normalizer a [totalAmount] that is present but
    null (or any value that [float] does not accept) is not replaced by the
    default 0: the record raises [TypeError] for null and no table is
    returned. *)
Theorem null_order_amount_aborts `{Coercions} (events : list event) (e : event) :
  In e events ->
  ev_payload e !! "totalAmount" = Some VNone ->
  order_record e = Raise TypeError /\
  forall df, normalize_orders events <> Ok df.
Proof.
  intros He Hnull.
  assert (Hr : order_record e = Raise TypeError).
  { unfold order_record, get_default, mbind, result_bind. rewrite Hnull. reflexivity. }
  split; [exact Hr|]. intros df Hn.
  destruct (normalize_orders_rows _ _ Hn) as (rs & Hrs & _).
  destruct (mapM_In_inv _ _ _ _ Hrs He) as (r & _ & Her). congruence.
Qed.

Lemma null_order_amount_aborts_witness :
  let e := mkEvent (Some "e1") (Some "order_created") (Some "vendorX")
             (<["order_id" := VStr "A"]> (<["totalAmount" := VNone]> ∅)) in
  normalize_orders (H := Reference.reference) [e] = Raise TypeError /\
  order_record (H := Reference.reference) e = Raise TypeError.
Proof.
  intros e. split; [reflexivity|].
  apply (null_order_amount_aborts (H := Reference.reference) [e] e).
  - left. reflexivity.
  - reflexivity.
Defined.

(** ** The aggregator: missing tables and repeated runs *)

Lemma filter_negb_eqb_idem (c : string) (l : list (string * list (option Z))) :
  List.filter (fun cv => negb (String.eqb (fst cv) c))
    (List.filter (fun cv => negb (String.eqb (fst cv) c)) l) =
  List.filter (fun cv => negb (String.eqb (fst cv) c)) l.
Proof.
  induction l as [|x l IH]; simpl; [reflexivity|].
  destruct (negb (String.eqb (fst x) c)) eqn:E; simpl; rewrite ?E, IH; reflexivity.
Qed.

Lemma str_in_own (c : string) (cs : list string) : str_in c (cs ++ [c]) = true.
Proof. rewrite str_in_app. simpl. rewrite String.eqb_refl, orb_true_r. reflexivity. Qed.

Lemma set_col_twice {R : Type} (c : string) (values : list (option Z)) (df : DataFrame R) :
  set_col c values (set_col c values df) = set_col c values df.
Proof.
  unfold set_col. simpl. f_equal.
  - destruct (str_in c (columns df)) eqn:E; [rewrite E; reflexivity|].
    rewrite str_in_own. reflexivity.
  - rewrite String.eqb_refl. simpl. rewrite filter_negb_eqb_idem. reflexivity.
Qed.

Lemma with_order_date_twice (st : tables) :
  with_order_date (with_order_date st) = with_order_date st.
Proof.
  unfold with_order_date. simpl. rewrite set_col_twice. reflexivity.
Qed.

Lemma df_empty_set_col {R : Type} (c : string) (values : list (option Z)) (df : DataFrame R) :
  df_empty df = false -> df_empty (set_col c values df) = false.
Proof.
  unfold df_empty. simpl. destruct (rows df); [discriminate|].
  destruct (columns df); [discriminate|]. destruct (str_in c (s :: l0)); reflexivity.
Qed.

(** X9. Running the aggregator a second time on the tables it has already
    processed returns the same result (table or exception) and leaves the
    tables as the first run left them: the [order_date] column is replaced,
    not added again. *)
Theorem aggregator_rerun (st : tables) :
  build_fact_order_daily (fst (build_fact_order_daily st)) =
  (fst (build_fact_order_daily st), snd (build_fact_order_daily st)).
Proof.
  pose proof (build_state st) as Hfst. rewrite Hfst.
  destruct (df_empty (orders_df st)) eqn:He.
  { destruct (build_fact_order_daily st); simpl in *; subst; reflexivity. }
  destruct (str_in "created_at" (columns (orders_df st))) eqn:Ec.
  2: { destruct (build_fact_order_daily st); simpl in *; subst; reflexivity. }
  clear Hfst.
  assert (Hc' : str_in "created_at" (columns (orders_df (with_order_date st))) = true).
  { simpl. destruct (str_in "order_date" (columns (orders_df st))); [exact Ec|].
    rewrite str_in_app, Ec. reflexivity. }
  assert (Hstep : forall s, df_empty (orders_df s) = false ->
            str_in "created_at" (columns (orders_df s)) = true ->
            build_fact_order_daily s =
            (vendor ← lift (col "vendor" o_vendor (orders_df (with_order_date s)));
             let order_date := map dt_date (map o_created_at (rows (orders_df s))) in
             let keys := map (fun dv => row_key (fst dv) (snd dv)) (combine order_date vendor) in
             results ← forM aggregate_group (groupby keys (orders_df (with_order_date s)));
             mret (from_records daily_columns results)) (with_order_date s)).
  { intros s Hs Hcs. unfold build_fact_order_daily. run_M. rewrite Hs.
    unfold col at 1. rewrite Hcs. simpl.
    unfold with_order_date. rewrite !map_map. reflexivity. }
  rewrite (Hstep (with_order_date st) (df_empty_set_col _ _ _ He) Hc').
  rewrite with_order_date_twice. simpl rows.
  rewrite <- (Hstep st He Ec).
  pose proof (build_state st) as Hfst. rewrite He, Ec in Hfst.
  destruct (build_fact_order_daily st); simpl in *; subst; reflexivity.
Qed.

Lemma forM_first_raises {A B : Type} (f : A -> M B) (x : A) (xs : list A) (st : tables)
    (e : exn) :
  f x st = (st, Raise e) -> forM f (x :: xs) st = (st, Raise e).
Proof. intros Hx. simpl. run_M. rewrite Hx. reflexivity. Qed.

(** X10. When the payments table lacks the column [order_id], as the
    table of an empty payment input does, the aggregator raises [KeyError]
    as soon as one order has a date and a vendor; when no order has both it
    returns the empty table. *)
Theorem aggregator_without_payment_columns (st : tables) :
  df_empty (orders_df st) = false ->
  has_columns ["created_at"; "vendor"; "order_id"] (orders_df st) ->
  str_in "order_id" (columns (payments_df st)) = false ->
  snd (build_fact_order_daily st) =
  match group_keys (map order_key (rows (orders_df st))) with
  | [] => Ok empty_frame
  | _ :: _ => Raise (KeyError "order_id")
  end.
Proof.
  intros He Ho Hp. unfold build_fact_order_daily. run_M. rewrite He.
  rewrite (col_ok "created_at") by (apply Ho; simpl; auto). simpl.
  rewrite (col_ok "vendor")
    by (apply (has_columns_set_col ["created_at"; "vendor"; "order_id"]);
        [exact Ho | simpl; auto]).
  simpl. rewrite order_keys_eq. unfold groupby.
  destruct (group_keys (map order_key (rows (orders_df st)))) as [|k ks]; [reflexivity|].
  simpl map. erewrite forM_first_raises; [reflexivity|].
  destruct k as [date vendor]. unfold aggregate_group. run_M.
  rewrite (col_ok "order_id" o_order_id)
    by (apply (has_columns_set_col ["created_at"; "vendor"; "order_id"]);
        [exact Ho | simpl; auto]).
  unfold col. rewrite Hp. reflexivity.
Qed.

Lemma aggregator_without_payment_columns_witness :
  snd (build_fact_order_daily
         (mkTables (orders_df Sample.two_orders) empty_frame (refunds_df Sample.two_orders))) =
  Raise (KeyError "order_id").
Proof.
  rewrite aggregator_without_payment_columns.
  - reflexivity.
  - reflexivity.
  - intros c Hc. simpl in Hc.
    repeat (destruct Hc as [<-|Hc]; [reflexivity|]). destruct Hc.
  - reflexivity.
Defined.

(** ** The aggregator: nothing is lost and nothing is counted twice *)

Lemma StronglySorted_key_NoDup (ks : list group_key) :
  StronglySorted key_lt ks -> List.NoDup ks.
Proof.
  induction 1 as [|k ks Hs IH Hk]; constructor; [|exact IH].
  intros Hin. rewrite List.Forall_forall in Hk. specialize (Hk k Hin).
  unfold key_lt in Hk. rewrite key_compare_refl in Hk. discriminate.
Qed.

Lemma key_eqb_refl (k : group_key) : key_eqb k k = true.
Proof. apply key_eqb_eq. reflexivity. Qed.

Lemma key_eqb_neq (k k' : group_key) : k <> k' -> key_eqb k k' = false.
Proof.
  intros Hne. destruct (key_eqb k k') eqn:E; [|reflexivity].
  apply key_eqb_eq in E. congruence.
Qed.

Lemma sum_Z_add {A : Type} (f g : A -> Z) (l : list A) :
  sum_Z (map (fun x => f x + g x)%Z l) = (sum_Z (map f l) + sum_Z (map g l))%Z.
Proof. induction l as [|x l IH]; simpl; [reflexivity|]. rewrite IH. lia. Qed.

Lemma sum_Z_indicator_absent (k0 : group_key) (ks : list group_key) :
  ~ In k0 ks -> sum_Z (map (fun k => if key_eqb k k0 then 1 else 0)%Z ks) = 0%Z.
Proof.
  induction ks as [|k ks IH]; simpl; [reflexivity|]. intros Hn.
  rewrite key_eqb_neq by (intros ->; apply Hn; left; reflexivity).
  rewrite IH; [reflexivity|]. intros Hin. apply Hn. right. exact Hin.
Qed.

Lemma sum_Z_indicator (k0 : group_key) (ks : list group_key) :
  List.NoDup ks -> In k0 ks ->
  sum_Z (map (fun k => if key_eqb k k0 then 1 else 0)%Z ks) = 1%Z.
Proof.
  induction 1 as [|k ks Hk Hnd IH]; simpl; [tauto|]. intros [->|Hin].
  - rewrite key_eqb_refl, sum_Z_indicator_absent by exact Hk. reflexivity.
  - rewrite key_eqb_neq by (intros ->; contradiction). rewrite IH by exact Hin. reflexivity.
Qed.

Lemma group_sizes_add_up (l : list order_row) (ks : list group_key) :
  List.NoDup ks ->
  (forall o k, In o l -> order_key o = Some k -> In k ks) ->
  sum_Z (map (fun k => len (group_of k l)) ks) = len (List.filter has_group l).
Proof.
  intros Hnd. induction l as [|o l IH]; intros Hcov.
  - simpl. unfold len. simpl. clear. induction ks as [|k ks IHk]; simpl; [reflexivity|].
    rewrite IHk. reflexivity.
  - assert (Hstep : forall k, len (group_of k (o :: l)) =
              ((if has_key k (order_key o) then 1 else 0) + len (group_of k l))%Z).
    { intros k. unfold group_of, len. simpl.
      destruct (has_key k (order_key o)); simpl length; lia. }
    rewrite (map_ext _ _ Hstep), sum_Z_add, IH
      by (intros o' k Ho'; apply Hcov; right; exact Ho').
    simpl List.filter. unfold has_group at 2.
    destruct (order_key o) as [k0|] eqn:Ek.
    + simpl has_key. rewrite (sum_Z_indicator k0 ks Hnd)
        by (apply (Hcov o); [left; reflexivity | exact Ek]).
      unfold len. simpl length. lia.
    + simpl has_key. assert (Hz : sum_Z (map (fun _ : group_key => 0%Z) ks) = 0%Z).
      { clear. induction ks; simpl; [reflexivity|]. rewrite IHks. reflexivity. }
      cbv iota. rewrite Hz. reflexivity.
Qed.

Lemma has_columns_nonempty {R : Type} (c : string) (cs : list string) (df : DataFrame R) :
  has_columns (c :: cs) df -> columns df <> [].
Proof.
  intros Hc Hnil. specialize (Hc c (or_introl eq_refl)). rewrite Hnil in Hc. discriminate.
Qed.

Lemma df_empty_true_rows {R : Type} (df : DataFrame R) :
  df_empty df = true -> columns df <> [] -> rows df = [].
Proof.
  unfold df_empty. destruct (rows df); [reflexivity|].
  destruct (columns df); [congruence | discriminate].
Qed.

(** X11. Every order that has a date and a vendor is counted in exactly
    one aggregate row: the [order_count]s of the table add up to the number
    of these orders. *)
Theorem order_counts_add_up (st : tables) (daily : DataFrame daily_row) :
  aggregator_columns st ->
  snd (build_fact_order_daily st) = Ok daily ->
  sum_Z (map d_order_count (rows daily)) = len (List.filter has_group (rows (orders_df st))).
Proof.
  intros Hcols Hd. pose proof Hcols as (Ho & _ & _).
  destruct (df_empty (orders_df st)) eqn:He.
  - rewrite (build_empty st He) in Hd. simpl in Hd. injection Hd as <-.
    rewrite (df_empty_true_rows _ He (has_columns_nonempty _ _ _ Ho)). reflexivity.
  - rewrite (build_ok st Hcols He) in Hd. simpl in Hd. injection Hd as <-.
    rewrite rows_from_records, map_map. simpl.
    apply group_sizes_add_up.
    + apply StronglySorted_key_NoDup, group_keys_sorted.
    + intros o k Hin Hk. apply group_keys_In. rewrite <- Hk. apply in_map, Hin.
Qed.

Lemma order_counts_add_up_witness :
  exists daily, snd (build_fact_order_daily Sample.with_undated_order) = Ok daily /\
                sum_Z (map d_order_count (rows daily)) = 1%Z.
Proof.
  destruct (snd (build_fact_order_daily Sample.with_undated_order)) as [daily|] eqn:E;
    [|vm_compute in E; discriminate].
  exists daily. split; [reflexivity|].
  rewrite (order_counts_add_up Sample.with_undated_order daily).
  - reflexivity.
  - repeat split; intros c Hc; simpl in Hc;
      repeat (destruct Hc as [<-|Hc]; [reflexivity|]); destruct Hc.
  - exact E.
Defined.

Lemma series_sum_cons (x : Q) (l : list Q) : series_sum (x :: l) = (x + series_sum l)%Q.
Proof. reflexivity. Qed.

Lemma series_sum_ext_in {A : Type} (f g : A -> Q) (l : list A) :
  (forall x, In x l -> f x == g x) -> series_sum (map f l) == series_sum (map g l).
Proof.
  induction l as [|x l IH]; intros Hfg; [reflexivity|].
  cbn [map]. rewrite !series_sum_cons. apply Qplus_comp.
  - apply Hfg. left. reflexivity.
  - apply IH. intros y Hy. apply Hfg. right. exact Hy.
Qed.

Lemma series_sum_add {A : Type} (f g : A -> Q) (l : list A) :
  series_sum (map (fun x => f x + g x)%Q l) == series_sum (map f l) + series_sum (map g l).
Proof.
  induction l as [|x l IH]; [reflexivity|].
  cbn [map]. rewrite !series_sum_cons, IH. ring.
Qed.

Lemma series_sum_zero {A : Type} (l : list A) : series_sum (map (fun _ => 0%Q) l) == 0.
Proof.
  induction l as [|x l IH]; [reflexivity|].
  cbn [map]. rewrite series_sum_cons, IH. ring.
Qed.

Lemma series_sum_indicator (a : Q) (k0 : group_key) (ks : list group_key) :
  List.NoDup ks -> In k0 ks ->
  series_sum (map (fun k => if key_eqb k k0 then a else 0%Q) ks) == a.
Proof.
  induction 1 as [|k ks Hk Hnd IH]; [simpl; tauto|]. intros [->|Hin].
  - cbn [map]. rewrite series_sum_cons, key_eqb_refl.
    rewrite (series_sum_ext_in _ (fun _ => 0%Q)), series_sum_zero; [ring|].
    intros k Hin. rewrite key_eqb_neq; [reflexivity|]. intros ->. contradiction.
  - cbn [map]. rewrite series_sum_cons, key_eqb_neq by (intros ->; contradiction).
    rewrite IH by exact Hin. ring.
Qed.

Lemma distinct_order_ids_eq (l : list order_row) (x y : order_row) :
  distinct_order_ids l -> In x l -> In y l ->
  py_eqb (o_order_id x) (o_order_id y) = true -> x = y.
Proof.
  unfold distinct_order_ids. induction 1 as [|a l Ha Hl IH]; simpl; [tauto|].
  rewrite List.Forall_forall in Ha. intros [<-|Hx] [<-|Hy] Heq; auto.
  - rewrite (Ha y Hy) in Heq. discriminate.
  - rewrite py_eqb_sym, (Ha x Hx) in Heq. discriminate.
Qed.

Section Conservation.

Context {P : Type} (pid : P -> pyval) (amt : P -> Q).
Context (l : list order_row) (ks : list group_key).
Hypothesis distinct : distinct_order_ids l.
Hypothesis ks_nodup : List.NoDup ks.
Hypothesis ks_cover : forall o k, In o l -> order_key o = Some k -> In k ks.

(** A payment is matched by the group of the one order it refers to, and
    by no other group. *)
Lemma matched_by_one_group (p : P) :
  series_sum (map (fun k => if isin (pid p) (map o_order_id (group_of k l))
                            then amt p else 0%Q) ks) ==
  if isin (pid p) (grouped_order_ids l) then amt p else 0%Q.
Proof.
  destruct (isin (pid p) (grouped_order_ids l)) eqn:EM.
  - unfold isin, grouped_order_ids in EM. apply existsb_exists in EM.
    destruct EM as (v & Hv & Hpv). apply in_map_iff in Hv.
    destruct Hv as (o & <- & Ho). apply filter_In in Ho. destruct Ho as [Ho Hg].
    unfold has_group in Hg. destruct (order_key o) as [k0|] eqn:Ek; [|discriminate].
    rewrite (series_sum_ext_in _ (fun k => if key_eqb k k0 then amt p else 0%Q)).
    + apply series_sum_indicator; [exact ks_nodup | eapply ks_cover; eassumption].
    + intros k Hk. destruct (key_eqb k k0) eqn:Ekk.
      * apply key_eqb_eq in Ekk. subst k.
        assert (Hin : isin (pid p) (map o_order_id (group_of k0 l)) = true).
        { apply existsb_exists. exists (o_order_id o). split; [|exact Hpv].
          apply in_map, filter_In. split; [exact Ho|]. rewrite Ek. simpl. apply key_eqb_refl. }
        rewrite Hin. reflexivity.
      * destruct (isin (pid p) (map o_order_id (group_of k l))) eqn:Ein; [|reflexivity].
        exfalso. apply existsb_exists in Ein. destruct Ein as (v & Hv & Hpv').
        apply in_map_iff in Hv. destruct Hv as (o' & <- & Ho').
        apply filter_In in Ho'. destruct Ho' as [Ho' Hk'].
        assert (o = o').
        { apply (distinct_order_ids_eq l); auto.
          eapply py_eqb_trans; [|exact Hpv']. rewrite py_eqb_sym. exact Hpv. }
        subst o'. rewrite Ek in Hk'. simpl in Hk'. congruence.
  - rewrite (series_sum_ext_in _ (fun _ => 0%Q)); [apply series_sum_zero|].
    intros k _. destruct (isin (pid p) (map o_order_id (group_of k l))) eqn:Ein; [|reflexivity].
    exfalso. assert (isin (pid p) (grouped_order_ids l) = true); [|congruence].
    eapply isin_subset; [|exact Ein]. intros v Hv. apply in_map_iff in Hv.
    destruct Hv as (o & <- & Ho). apply in_map, filter_In.
    apply filter_In in Ho. destruct Ho as [Ho Hk]. split; [exact Ho|].
    unfold has_group. destruct (order_key o); [reflexivity | discriminate].
Qed.

Lemma matched_sums_add_up (ps : list P) :
  series_sum (map (fun k => series_sum (map amt
                (List.filter (fun p => isin (pid p) (map o_order_id (group_of k l))) ps))) ks) ==
  series_sum (map amt (List.filter (fun p => isin (pid p) (grouped_order_ids l)) ps)).
Proof.
  induction ps as [|p ps IH].
  - simpl. apply series_sum_zero.
  - rewrite (series_sum_ext_in _
      (fun k => (if isin (pid p) (map o_order_id (group_of k l)) then amt p else 0%Q) +
                series_sum (map amt
                  (List.filter (fun p => isin (pid p) (map o_order_id (group_of k l))) ps)))%Q).
    + rewrite series_sum_add, IH, matched_by_one_group. cbn [List.filter].
      destruct (isin (pid p) (grouped_order_ids l)).
      * cbn [map]. rewrite series_sum_cons. reflexivity.
      * ring.
    + intros k _. cbn [List.filter].
      destruct (isin (pid p) (map o_order_id (group_of k l))).
      * cbn [map]. rewrite series_sum_cons. reflexivity.
      * ring.
Qed.

End Conservation.

(** X12. When the orders have pairwise different ids, as the orders
    normalizer guarantees, no payment and no refund is counted in two
    aggregate rows: the [gross_revenue]s of the table add up to the sum of
    [payment_amount] over the payments whose [order_id] is the id of an
    order with date and vendor, the [total_refunds] add up likewise, and
    the [net_revenue]s add up to the difference of the two. *)
Theorem revenue_adds_up (st : tables) (daily : DataFrame daily_row) :
  aggregator_columns st ->
  distinct_order_ids (rows (orders_df st)) ->
  snd (build_fact_order_daily st) = Ok daily ->
  let ids := grouped_order_ids (rows (orders_df st)) in
  let gross := series_sum (map p_payment_amount
                 (List.filter (fun p => isin (p_order_id p) ids) (rows (payments_df st)))) in
  let refunds := series_sum (map r_refund_amount
                   (List.filter (fun r => isin (r_order_id r) ids) (rows (refunds_df st)))) in
  series_sum (map d_gross_revenue (rows daily)) == gross /\
  series_sum (map d_total_refunds (rows daily)) == refunds /\
  series_sum (map d_net_revenue (rows daily)) == gross - refunds.
Proof.
  intros Hcols Hdist Hd. pose proof Hcols as (Ho & _ & _).
  destruct (df_empty (orders_df st)) eqn:He.
  - rewrite (build_empty st He) in Hd. simpl in Hd. injection Hd as <-.
    rewrite (df_empty_true_rows _ He (has_columns_nonempty _ _ _ Ho)). simpl.
    assert (Hp : forall l : list payment_row,
              List.filter (fun p => isin (p_order_id p) []) l = []).
    { induction l; simpl; auto. }
    assert (Hr : forall l : list refund_row,
              List.filter (fun r => isin (r_order_id r) []) l = []).
    { induction l; simpl; auto. }
    unfold grouped_order_ids. simpl. rewrite Hp, Hr. simpl. repeat split; reflexivity.
  - rewrite (build_ok st Hcols He) in Hd. simpl in Hd. injection Hd as <-.
    rewrite rows_from_records, !map_map. cbv zeta.
    set (ks := group_keys (map order_key (rows (orders_df st)))).
    assert (Hnd : List.NoDup ks) by apply StronglySorted_key_NoDup, group_keys_sorted.
    assert (Hcov : forall o k, In o (rows (orders_df st)) -> order_key o = Some k -> In k ks).
    { intros o k Hin Hk. apply group_keys_In. rewrite <- Hk. apply in_map, Hin. }
    pose proof (matched_sums_add_up p_order_id p_payment_amount _ ks Hdist Hnd Hcov
                  (rows (payments_df st))) as Hg.
    pose proof (matched_sums_add_up r_order_id r_refund_amount _ ks Hdist Hnd Hcov
                  (rows (refunds_df st))) as Hr.
    split; [|split].
    + rewrite <- Hg. apply series_sum_ext_in. intros k _. simpl. apply Qred_correct.
    + rewrite <- Hr. apply series_sum_ext_in. intros k _. simpl. apply Qred_correct.
    + rewrite <- Hg, <- Hr.
      rewrite (series_sum_ext_in _ (fun k =>
        series_sum (map p_payment_amount (List.filter
          (fun p => isin (p_order_id p) (map o_order_id (group_of k (rows (orders_df st)))))
          (rows (payments_df st)))) +
        - series_sum (map r_refund_amount (List.filter
          (fun r => isin (r_order_id r) (map o_order_id (group_of k (rows (orders_df st)))))
          (rows (refunds_df st)))))%Q).
      * rewrite series_sum_add.
        rewrite (series_sum_ext_in (fun k => - _)%Q
                   (fun k => (-1 # 1) * series_sum (map r_refund_amount (List.filter
                      (fun r => isin (r_order_id r)
                                  (map o_order_id (group_of k (rows (orders_df st)))))
                      (rows (refunds_df st)))))%Q) by (intros; ring).
        assert (Hscale : forall (f : group_key -> Q) (c : Q) (l : list group_key),
                  series_sum (map (fun k => c * f k)%Q l) == c * series_sum (map f l)).
        { intros f c l. induction l as [|x l IHl]; [simpl; ring|].
          cbn [map]. rewrite !series_sum_cons, IHl. ring. }
        rewrite Hscale. ring.
      * intros k _. simpl. rewrite Qred_correct. reflexivity.
Qed.

Lemma revenue_adds_up_witness :
  exists daily, snd (build_fact_order_daily Sample.with_undated_order) = Ok daily /\
                series_sum (map d_gross_revenue (rows daily)) == 10 /\
                series_sum (map d_total_refunds (rows daily)) == 3.
Proof.
  destruct (snd (build_fact_order_daily Sample.with_undated_order)) as [daily|] eqn:E;
    [|vm_compute in E; discriminate].
  exists daily.
  destruct (revenue_adds_up Sample.with_undated_order daily) as (Hg & Hr & _).
  - repeat split; intros c Hc; simpl in Hc;
      repeat (destruct Hc as [<-|Hc]; [reflexivity|]); destruct Hc.
  - repeat constructor.
  - exact E.
  - split; [reflexivity|]. split; [rewrite Hg | rewrite Hr]; reflexivity.
Defined.

(** ** run_transformation and run_pipeline *)

Lemma forM_length {A B : Type} (f : A -> M B) (xs : list A) :
  forall st st' ys, forM f xs st = (st', Ok ys) -> length ys = length xs.
Proof.
  induction xs as [|x xs IH]; intros st st' ys; simpl.
  - intros [= _ <-]. reflexivity.
  - run_M. destruct (f x st) as [s1 [y|e]]; [|discriminate].
    destruct (forM f xs s1) as [s2 [ys'|e]] eqn:E; [|discriminate].
    intros [= _ <-]. simpl. f_equal. eapply IH, E.
Qed.

Lemma forM_head_ok {A B : Type} (f : A -> M B) (x : A) (xs : list A) (st st' : tables)
    (ys : list B) :
  forM f (x :: xs) st = (st', Ok ys) -> exists s1 y, f x st = (s1, Ok y).
Proof.
  simpl. run_M. destruct (f x st) as [s1 [y|e]]; [|discriminate]. eauto.
Qed.

Lemma col_ok_inv {R A : Type} (c : string) (f : R -> A) (df : DataFrame R) (l : list A) :
  col c f df = Ok l -> str_in c (columns df) = true.
Proof. unfold col. destruct (str_in c (columns df)); [reflexivity | discriminate]. Qed.

Lemma aggregate_group_ok_inv (g : group_key * DataFrame order_row) (st st' : tables)
    (r : daily_row) :
  aggregate_group g st = (st', Ok r) ->
  has_columns ["order_id"; "payment_amount"; "payment_status"] (payments_df st) /\
  has_columns ["order_id"; "refund_amount"] (refunds_df st).
Proof.
  destruct g as [[date vendor] group]. unfold aggregate_group. run_M.
  destruct (col "order_id" o_order_id group); simpl; [|discriminate].
  destruct (col "order_id" p_order_id (payments_df st)) eqn:E1; simpl; [|discriminate].
  destruct (col "payment_amount" _ _) eqn:E2; simpl; [|discriminate].
  destruct (col "payment_status" _ _) eqn:E3; simpl; [|discriminate].
  destruct (col "order_id" r_order_id (refunds_df st)) eqn:E4; simpl; [|discriminate].
  destruct (col "refund_amount" _ _) eqn:E5; simpl; [|discriminate].
  intros _. apply col_ok_inv in E1, E2, E3, E4, E5. simpl in E2, E3, E5.
  split; intros c Hc; simpl in Hc;
    repeat (destruct Hc as [<-|Hc]; [assumption|]); destruct Hc.
Qed.

(** A returned aggregate table is the table without columns, or it has
    rows and then every column the aggregator reads was there. *)
Lemma build_result_shape (st : tables) (daily : DataFrame daily_row) :
  snd (build_fact_order_daily st) = Ok daily ->
  daily = empty_frame \/
  (columns daily = daily_columns /\ rows daily <> [] /\ assigned daily = [] /\
   df_empty (orders_df st) = false /\
   has_columns ["order_id"; "payment_amount"; "payment_status"] (payments_df st) /\
   has_columns ["order_id"; "refund_amount"] (refunds_df st)).
Proof.
  unfold build_fact_order_daily. run_M.
  destruct (df_empty (orders_df st)) eqn:He; [intros [= <-]; auto|].
  destruct (col "created_at" o_created_at (orders_df st)); simpl; [|discriminate].
  match goal with |- context [col "vendor" ?f ?df] => destruct (col "vendor" f df) end;
    simpl; [|discriminate].
  match goal with |- context [forM ?f ?xs ?s] =>
    destruct (forM f xs s) as [s' [ys|e]] eqn:E; [|discriminate];
    pose proof (forM_length _ _ _ _ _ E) as Hlen;
    destruct xs as [|g gs] end.
  - destruct ys; [|discriminate]. intros [= <-]. auto.
  - destruct ys as [|y ys]; [discriminate|]. simpl. intros [= <-]. right.
    destruct (forM_head_ok _ _ _ _ _ _ E) as (s1 & y' & Hg).
    apply aggregate_group_ok_inv in Hg. simpl in Hg. destruct Hg as [Hp Hr].
    repeat split; try assumption. discriminate.
Qed.

Section Transformation.

Context `{Coercions}.

Lemma normalize_orders_cases (events : list event) (df : DataFrame order_row) :
  normalize_orders events = Ok df ->
  (events = [] /\ df = empty_frame) \/
  (events <> [] /\ columns df = order_columns /\ rows df <> [] /\ assigned df = []).
Proof.
  destruct events as [|e es]; [intros [= <-]; auto|]. intros Hn. right.
  split; [discriminate|].
  assert (Hne : e :: es <> []) by discriminate.
  destruct (normalize_orders_shape _ _ Hne Hn) as (rs & _ & Hrs & ->).
  simpl. repeat split. apply drop_duplicates_last_nonempty, sort_values_nonempty, Hrs.
Qed.

Lemma normalize_payments_cases (events : list event) (df : DataFrame payment_row) :
  normalize_payments events = Ok df ->
  (events = [] /\ df = empty_frame) \/
  (events <> [] /\ columns df = payment_columns /\ rows df <> [] /\ assigned df = []).
Proof.
  destruct events as [|e es]; [intros [= <-]; auto|]. intros Hn. right.
  split; [discriminate|].
  assert (Hne : e :: es <> []) by discriminate.
  destruct (normalize_payments_shape _ _ Hne Hn) as (rs & _ & Hrs & ->).
  simpl. repeat split. apply drop_duplicates_nonempty, Hrs.
Qed.

Lemma normalize_refunds_cases (events : list event) (df : DataFrame refund_row) :
  normalize_refunds events = Ok df ->
  (events = [] /\ df = empty_frame) \/
  (events <> [] /\ columns df = refund_columns /\ rows df <> [] /\ assigned df = []).
Proof.
  destruct events as [|e es]; [intros [= <-]; auto|]. intros Hn. right.
  split; [discriminate|].
  assert (Hne : e :: es <> []) by discriminate.
  destruct (normalize_refunds_shape _ _ Hne Hn) as (rs & _ & Hrs & ->).
  simpl. repeat split. apply drop_duplicates_nonempty, Hrs.
Qed.

(** What [run_transformation_db] has done when it returns. *)
Lemma run_transformation_db_inv (events_raw : list event) (st : tables)
    (daily : DataFrame daily_row) (summary : revenue_summary) :
  run_transformation_db events_raw = Ok (st, daily, summary) ->
  exists o p r,
    normalize_orders (fetch_events events_raw ORDER_TYPES) = Ok o /\
    normalize_payments (fetch_events events_raw PAYMENT_TYPES) = Ok p /\
    normalize_refunds (fetch_events events_raw REFUND_TYPES) = Ok r /\
    build_fact_order_daily (mkTables o p r) = (st, Ok daily) /\
    revenue_summary_of daily = Ok summary.
Proof.
  unfold run_transformation_db, run_transformation, mbind, result_bind.
  destruct (normalize_orders _) as [o|]; [|discriminate].
  destruct (normalize_payments _) as [p|]; [|discriminate].
  destruct (normalize_refunds _) as [r|]; [|discriminate].
  destruct (build_fact_order_daily (mkTables o p r)) as [s [d|e]] eqn:E; [|discriminate].
  destruct (revenue_summary_of d) as [sm|] eqn:Es; [|discriminate].
  intros [= <- <- <-]. exists o, p, r. auto.
Qed.

End Transformation.

Lemma revenue_summary_needs_columns (daily : DataFrame daily_row) (summary : revenue_summary) :
  revenue_summary_of daily = Ok summary -> daily <> empty_frame.
Proof.
  intros Hs ->. discriminate.
Qed.

Lemma transformation_tables_shape `{Coercions} (events_raw : list event)
    (st : tables) (daily : DataFrame daily_row) (summary : revenue_summary) :
  run_transformation_db events_raw = Ok (st, daily, summary) ->
  (columns daily = daily_columns /\ rows daily <> []) /\
  (columns (orders_df st) = order_columns ++ ["order_date"] /\ rows (orders_df st) <> []) /\
  (columns (payments_df st) = payment_columns /\ rows (payments_df st) <> []) /\
  (columns (refunds_df st) = refund_columns /\ rows (refunds_df st) <> []).
Proof.
  intros Hrun.
  destruct (run_transformation_db_inv _ _ _ _ Hrun) as (o & p & r & Ho & Hp & Hr & Hb & Hs).
  pose proof (revenue_summary_needs_columns _ _ Hs) as Hne.
  assert (Hsnd : snd (build_fact_order_daily (mkTables o p r)) = Ok daily)
    by (rewrite Hb; reflexivity).
  destruct (build_result_shape _ _ Hsnd) as [->|(Hc & Hrows & _ & He & Hpc & Hrc)];
    [congruence|].
  simpl in He, Hpc, Hrc.
  destruct (normalize_orders_cases _ _ Ho) as [[_ ->]|(_ & Hoc & Hor & Hoa)]; [discriminate|].
  destruct (normalize_payments_cases _ _ Hp) as [[_ ->]|(_ & Hpc' & Hpr & _)].
  { specialize (Hpc "order_id" (or_introl eq_refl)). discriminate. }
  destruct (normalize_refunds_cases _ _ Hr) as [[_ ->]|(_ & Hrc' & Hrr & _)].
  { specialize (Hrc "order_id" (or_introl eq_refl)). discriminate. }
  pose proof (build_state (mkTables o p r)) as Hst. rewrite Hb in Hst. simpl in Hst.
  rewrite He, Hoc in Hst. simpl in Hst. subst st. simpl. rewrite Hoc. simpl.
  repeat split; assumption.
Qed.

(** X13. When [run_transformation] returns, none of its four tables is
    empty: the aggregate table has rows and its nine columns, and the
    orders, payments and refunds tables have rows and their canonical
    columns, the orders table with [order_date] added. *)
Theorem run_transformation_returns_full_tables `{Coercions} (events_raw : list event)
    (st : tables) (daily : DataFrame daily_row) (summary : revenue_summary) :
  run_transformation_db events_raw = Ok (st, daily, summary) ->
  (columns daily = daily_columns /\ rows daily <> []) /\
  (columns (orders_df st) = order_columns ++ ["order_date"] /\ rows (orders_df st) <> []) /\
  (columns (payments_df st) = payment_columns /\ rows (payments_df st) <> []) /\
  (columns (refunds_df st) = refund_columns /\ rows (refunds_df st) <> []).
Proof. apply transformation_tables_shape. Qed.

(** X14. Without any order event [run_transformation] does not return
    empty tables: once the payments and refunds are normalized, the read of
    [gross_revenue] on the aggregate table without columns raises
    [KeyError]. *)
Theorem run_transformation_without_orders `{Coercions} (events_raw : list event) :
  fetch_events events_raw ORDER_TYPES = [] ->
  (exists p, normalize_payments (fetch_events events_raw PAYMENT_TYPES) = Ok p) ->
  (exists r, normalize_refunds (fetch_events events_raw REFUND_TYPES) = Ok r) ->
  run_transformation_db events_raw = Raise (KeyError "gross_revenue").
Proof.
  intros Ho (p & Hp) (r & Hr).
  unfold run_transformation_db, run_transformation, mbind, result_bind.
  rewrite Ho, Hp, Hr. reflexivity.
Qed.

Lemma run_transformation_returns_full_tables_witness :
  exists st daily summary,
    run_transformation_db (H := Reference.reference)
      [Sample.order_event "A" (VStr "2024-01-01") "vendorX";
       Sample.payment_event "p1" "A" "Success" (VNum 10);
       Sample.refund_event "r1" "A" (VNum 3)] = Ok (st, daily, summary) /\
    rows daily <> [] /\ columns (payments_df st) = payment_columns.
Proof.
  destruct (run_transformation_db (H := Reference.reference)
      [Sample.order_event "A" (VStr "2024-01-01") "vendorX";
       Sample.payment_event "p1" "A" "Success" (VNum 10);
       Sample.refund_event "r1" "A" (VNum 3)]) as [[[st daily] summary]|] eqn:E;
    [|vm_compute in E; discriminate].
  exists st, daily, summary. split; [reflexivity|].
  destruct (run_transformation_returns_full_tables (H := Reference.reference) _ _ _ _ E)
    as ((_ & Hd) & _ & (Hp & _) & _).
  split; assumption.
Defined.

Lemma run_transformation_without_orders_witness :
  run_transformation_db (H := Reference.reference)
    [Sample.payment_event "p1" "A" "Success" (VNum 10);
     Sample.refund_event "r1" "A" (VNum 3)] = Raise (KeyError "gross_revenue").
Proof.
  apply (run_transformation_without_orders (H := Reference.reference)).
  - reflexivity.
  - eexists. reflexivity.
  - eexists. reflexivity.
Defined.

Lemma load_nonempty {R : Type} (cs : list string) (l : list R)
    (a : list (string * list (option Z))) :
  cs <> [] -> l <> [] ->
  load_dataframe_to_bq (mkDataFrame cs l a) = Some (mkDataFrame cs l a).
Proof.
  intros Hc Hl. unfold load_dataframe_to_bq, df_empty. simpl.
  destruct l; [congruence|]. destruct cs; [congruence|]. reflexivity.
Qed.

(** X15. When [run_transformation] returns, [run_pipeline] selects its
    columns without a [KeyError] and sends all four tables to the
    warehouse, none being skipped as empty: each with the rows of the
    transformation and exactly the columns of its CREATE TABLE statement,
    the orders without [event_type] and [order_date]. *)
Theorem run_pipeline_loads_schema_tables `{Coercions} (events_raw : list event)
    (st : tables) (daily : DataFrame daily_row) (summary : revenue_summary) :
  run_transformation_db events_raw = Ok (st, daily, summary) ->
  exists o p r,
    run_pipeline events_raw = Ok (mkLoad (Some o) (Some p) (Some r) (Some daily)) /\
    (columns o = fact_orders_schema /\ rows o = rows (orders_df st)) /\
    (columns p = fact_payments_schema /\ rows p = rows (payments_df st)) /\
    (columns r = fact_refunds_schema /\ rows r = rows (refunds_df st)) /\
    columns daily = fact_order_daily_schema.
Proof.
  intros Hrun.
  destruct (transformation_tables_shape _ _ _ _ Hrun)
    as ((Hdc & Hdr) & (Hoc & Hor) & (Hpc & Hpr) & (Hrc & Hrr)).
  unfold run_pipeline, mbind, result_bind. rewrite Hrun.
  unfold take_columns. rewrite Hoc, Hpc, Hrc. simpl.
  rewrite !load_nonempty by (assumption || discriminate).
  assert (Hd : load_dataframe_to_bq daily = Some daily).
  { destruct daily as [cs l a]. simpl in *. subst cs. apply load_nonempty; [discriminate|exact Hdr]. }
  rewrite Hd. eexists. eexists. eexists. split; [reflexivity|]. simpl.
  repeat split. exact Hdc.
Qed.

Lemma run_pipeline_loads_schema_tables_witness :
  exists load o,
    run_pipeline (H := Reference.reference)
      [Sample.order_event "A" (VStr "2024-01-01") "vendorX";
       Sample.payment_event "p1" "A" "Success" (VNum 10);
       Sample.refund_event "r1" "A" (VNum 3)] = Ok load /\
    load_fact_orders load = Some o /\ columns o = fact_orders_schema.
Proof.
  destruct (run_transformation_db (H := Reference.reference)
      [Sample.order_event "A" (VStr "2024-01-01") "vendorX";
       Sample.payment_event "p1" "A" "Success" (VNum 10);
       Sample.refund_event "r1" "A" (VNum 3)]) as [[[st daily] summary]|] eqn:E;
    [|vm_compute in E; discriminate].
  destruct (run_pipeline_loads_schema_tables (H := Reference.reference) _ _ _ _ E)
    as (o & p & r & Hrun & (Ho & _) & _).
  eexists. exists o. split; [exact Hrun|]. split; [reflexivity | exact Ho].
Defined.

(** ** fetch_events *)

Lemma fetch_events_filter (keep : event -> bool) (events_raw : list event)
    (event_types : list string) :
  (forall e t, ev_event_type e = Some t -> str_in t event_types = true -> keep e = true) ->
  fetch_events (List.filter keep events_raw) event_types = fetch_events events_raw event_types.
Proof.
  intros Hkeep. unfold fetch_events. apply filter_filter_implied.
  intros e. destruct (ev_event_type e) as [t|] eqn:Et; [|discriminate]. apply (Hkeep e t Et).
Qed.

(** X16. Only the events of the nine queried types reach the pipeline:
    removing any other events from the store (shipments, events without
    type) changes neither the result of [run_transformation] nor the result
    of [run_quality_report]. *)
Theorem other_event_types_are_ignored `{Coercions} (keep : event -> bool)
    (events_raw : list event) :
  (forall e, relevant_type e = true -> keep e = true) ->
  run_transformation_db (List.filter keep events_raw) = run_transformation_db events_raw /\
  run_quality_report_db (List.filter keep events_raw) = run_quality_report_db events_raw.
Proof.
  intros Hkeep.
  assert (Hf : forall ts, (forall t, str_in t ts = true ->
                             str_in t (ORDER_TYPES ++ PAYMENT_TYPES ++ REFUND_TYPES) = true) ->
            fetch_events (List.filter keep events_raw) ts = fetch_events events_raw ts).
  { intros ts Hts. apply fetch_events_filter. intros e t Et Hin. apply Hkeep.
    unfold relevant_type. rewrite Et. apply Hts, Hin. }
  assert (Ho := Hf ORDER_TYPES). assert (Hp := Hf PAYMENT_TYPES). assert (Hr := Hf REFUND_TYPES).
  unfold run_transformation_db, run_quality_report_db.
  rewrite Ho, Hp, Hr; [split; reflexivity| | |];
    intros t Ht; rewrite !str_in_app, ?Ht, ?orb_true_r; reflexivity.
Qed.

Lemma other_event_types_are_ignored_witness :
  let shipment := mkEvent (Some "s1") (Some "historical_shipment") (Some "vendorX") ∅ in
  let store := [Sample.order_event "A" (VStr "2024-01-01") "vendorX"; shipment;
                Sample.payment_event "p1" "A" "Success" (VNum 10);
                Sample.refund_event "r1" "A" (VNum 3)] in
  List.filter relevant_type store =
    [Sample.order_event "A" (VStr "2024-01-01") "vendorX";
     Sample.payment_event "p1" "A" "Success" (VNum 10);
     Sample.refund_event "r1" "A" (VNum 3)] /\
  run_transformation_db (H := Reference.reference) (List.filter relevant_type store) =
    run_transformation_db (H := Reference.reference) store.
Proof.
  intros shipment store. split; [reflexivity|].
  apply (other_event_types_are_ignored (H := Reference.reference) relevant_type store).
  auto.
Defined.

(** ** The quality report: when it returns and what it counts *)





Lemma combine_maps {A B C : Type} (f : A -> B) (g : A -> C) (l : list A) :
  combine (map f l) (map g l) = map (fun x => (f x, g x)) l.
Proof. induction l as [|x l IH]; simpl; [reflexivity|]. rewrite IH. reflexivity. Qed.

(** What a returned report holds in its counting fields. *)
Lemma quality_checks_counts (st : tables) (rep : report) :
  snd (quality_checks st) = Ok rep ->
  let orders := rows (orders_df st) in
  let payments := rows (payments_df st) in
  let refunds := rows (refunds_df st) in
  let merged := merge_inner (map (fun o => (o_order_id o, o_created_at o)) orders)
                  (map (fun p => (p_order_id p, p_payment_date p)) payments) in
  let days := map (fun cp => days_between (fst cp) (snd cp)) merged in
  q_total_payments rep = len payments /\
  q_total_refunds rep = len refunds /\
  q_payments_missing_order_id rep = len (List.filter (fun p => isna (p_order_id p)) payments) /\
  q_refunds_missing_payment_id rep = len (List.filter (fun r => isna (r_payment_id r)) refunds) /\
  q_orphan_payments rep =
    len (List.filter (fun p => negb (isin (p_order_id p) (map o_order_id orders))) payments) /\
  q_orphan_refunds rep =
    len (List.filter (fun r => negb (isin (r_payment_id r) (map p_payment_id payments))) refunds) /\
  q_payments_over_7_days rep = match merged with [] => 0%Z | _ => count_over 7 days end /\
  q_payments_over_30_days rep = match merged with [] => 0%Z | _ => count_over 30 days end /\
  (merged = [] -> q_avg_days_to_payment rep = Some 0%Q).
Proof.
  unfold quality_checks. run_M.
  repeat match goal with
         | |- context [col ?c ?f ?df] =>
             let E := fresh "E" in
             destruct (col c f df) eqn:E; simpl; [apply col_inv in E | discriminate]
         end.
  intros [= <-]. simpl. subst. simpl in *. unfold df_len.
  rewrite !count_true_map, !combine_maps.
  repeat split;
    try (destruct (merge_inner _ _); reflexivity).
  intros ->. reflexivity.
Qed.

Lemma len_filter_le {A : Type} (p : A -> bool) (l : list A) :
  (0 <= len (List.filter p l) <= len l)%Z.
Proof.
  unfold len. split; [lia|]. apply inj_le.
  induction l as [|x l IH]; simpl; [lia|]. destruct (p x); simpl; lia.
Qed.

Lemma len_filter_mono {A : Type} (p q : A -> bool) (l : list A) :
  (forall x, In x l -> p x = true -> q x = true) ->
  (len (List.filter p l) <= len (List.filter q l))%Z.
Proof.
  intros Hpq. unfold len. apply inj_le.
  induction l as [|x l IH]; simpl; [lia|].
  assert (IH' : (length (List.filter p l) <= length (List.filter q l))%nat).
  { apply IH. intros y Hy. apply Hpq. right. exact Hy. }
  destruct (p x) eqn:Ep.
  - rewrite (Hpq x (or_introl eq_refl) Ep). simpl. lia.
  - destruct (q x); simpl; lia.
Qed.

Lemma len_filter_zero {A : Type} (p : A -> bool) (l : list A) :
  len (List.filter p l) = 0%Z <-> forall x, In x l -> p x = false.
Proof.
  unfold len. induction l as [|x l IH]; simpl.
  - split; [intros _ y [] | reflexivity].
  - destruct (p x) eqn:Ep; simpl.
    + split; [lia|]. intros Hall. specialize (Hall x (or_introl eq_refl)). congruence.
    + rewrite IH. split.
      * intros Hall y [<-|Hy]; auto.
      * intros Hall y Hy. apply Hall. right. exact Hy.
Qed.

Lemma isin_none_absent (ids : list pyval) :
  (forall v, In v ids -> v <> VNone) -> isin VNone ids = false.
Proof.
  intros Hids. unfold isin. destruct (existsb (py_eqb VNone) ids) eqn:E; [|reflexivity].
  apply existsb_exists in E. destruct E as (v & Hv & Heq).
  destruct v; simpl in Heq; try discriminate. exfalso. apply (Hids VNone Hv). reflexivity.
Qed.

(** X18. In a returned report the orphan payments are the payments whose
    [order_id] is the id of no order: their count lies between 0 and the
    number of payments, it is 0 exactly when every payment refers to an
    order of the table, and when every order has an id it includes every
    payment without [order_id].  The same holds for the refunds and their
    [payment_id]. *)
Theorem orphan_counts (st : tables) (rep : report) :
  snd (quality_checks st) = Ok rep ->
  ((0 <= q_orphan_payments rep <= q_total_payments rep)%Z /\
   (q_orphan_payments rep = 0%Z <->
    forall p, In p (rows (payments_df st)) ->
              isin (p_order_id p) (map o_order_id (rows (orders_df st))) = true) /\
   ((forall o, In o (rows (orders_df st)) -> o_order_id o <> VNone) ->
    (q_payments_missing_order_id rep <= q_orphan_payments rep)%Z)) /\
  ((0 <= q_orphan_refunds rep <= q_total_refunds rep)%Z /\
   (q_orphan_refunds rep = 0%Z <->
    forall r, In r (rows (refunds_df st)) ->
              isin (r_payment_id r) (map p_payment_id (rows (payments_df st))) = true) /\
   ((forall p, In p (rows (payments_df st)) -> p_payment_id p <> VNone) ->
    (q_refunds_missing_payment_id rep <= q_orphan_refunds rep)%Z)).
Proof.
  intros Hrep.
  destruct (quality_checks_counts st rep Hrep)
    as (Htp & Htr & Hmp & Hmr & Hop & Hor & _).
  rewrite Htp, Htr, Hmp, Hmr, Hop, Hor. split; (split; [apply len_filter_le|]); split.
  - rewrite len_filter_zero. split; intros Hall p Hp; specialize (Hall p Hp).
    + apply negb_false_iff, Hall.
    + rewrite Hall. reflexivity.
  - intros Hids. apply len_filter_mono. intros p _ Hna.
    destruct (p_order_id p); try discriminate.
    rewrite isin_none_absent; [reflexivity|].
    intros v Hv. apply in_map_iff in Hv. destruct Hv as (o & <- & Ho). apply Hids, Ho.
  - rewrite len_filter_zero. split; intros Hall r Hr; specialize (Hall r Hr).
    + apply negb_false_iff, Hall.
    + rewrite Hall. reflexivity.
  - intros Hids. apply len_filter_mono. intros r _ Hna.
    destruct (r_payment_id r); try discriminate.
    rewrite isin_none_absent; [reflexivity|].
    intros v Hv. apply in_map_iff in Hv. destruct Hv as (p & <- & Hp). apply Hids, Hp.
Qed.

Lemma orphan_counts_witness :
  exists rep, snd (quality_checks Sample.unpaid) = Ok rep /\
              (0 <= q_orphan_payments rep <= q_total_payments rep)%Z /\
              q_orphan_payments rep = 1%Z.
Proof.
  destruct (snd (quality_checks Sample.unpaid)) as [rep|] eqn:E;
    [|vm_compute in E; discriminate].
  exists rep. split; [reflexivity|].
  destruct (orphan_counts Sample.unpaid rep E) as ((Hb & _) & _).
  split; [exact Hb|]. vm_compute in E. injection E as <-. reflexivity.
Defined.

Lemma Qlt_bool_iff (a b : Q) : Qlt_bool a b = true <-> (a < b)%Q.
Proof.
  unfold Qlt_bool. rewrite negb_true_iff. split.
  - intros Hle. apply Qnot_le_lt. intros Hba. apply Qle_bool_iff in Hba. congruence.
  - intros Hlt. destruct (Qle_bool b a) eqn:E; [|reflexivity].
    apply Qle_bool_iff in E. exfalso. eapply Qlt_not_le; eassumption.
Qed.

(** X19. The late-arrival counts of a returned report are ordered: the
    payments more than 30 days after their order are among those more than
    7 days after it, and both counts are at most the number of matched
    (order, payment) pairs; without a matched pair the three late-arrival
    statistics are 0. *)
Theorem late_arrival_counts (st : tables) (rep : report) :
  snd (quality_checks st) = Ok rep ->
  let merged := merge_inner
                  (map (fun o => (o_order_id o, o_created_at o)) (rows (orders_df st)))
                  (map (fun p => (p_order_id p, p_payment_date p)) (rows (payments_df st))) in
  (0 <= q_payments_over_30_days rep <= q_payments_over_7_days rep)%Z /\
  (q_payments_over_7_days rep <= len merged)%Z /\
  (merged = [] ->
   q_payments_over_7_days rep = 0%Z /\ q_payments_over_30_days rep = 0%Z /\
   q_avg_days_to_payment rep = Some 0%Q).
Proof.
  intros Hrep merged.
  destruct (quality_checks_counts st rep Hrep) as (_ & _ & _ & _ & _ & _ & H7 & H30 & Havg).
  fold merged in H7, H30, Havg. rewrite H7, H30.
  split; [|split].
  - destruct merged as [|m ms]; [lia|]. unfold count_over, count_true. split.
    + apply len_filter_le.
    + apply len_filter_mono. intros [v|] _; [|discriminate].
      rewrite !Qlt_bool_iff. intros Hv. eapply Qlt_trans; [|exact Hv]. reflexivity.
  - destruct merged as [|m ms] eqn:Em; [unfold len; simpl; lia|].
    unfold count_over, count_true. rewrite <- (len_map (fun cp => days_between (fst cp) (snd cp))).
    apply len_filter_le.
  - intros Hm. rewrite Hm in *. auto.
Qed.

Lemma late_arrival_counts_witness :
  exists rep, snd (quality_checks Sample.unpaid) = Ok rep /\
              q_payments_over_7_days rep = 0%Z /\ q_avg_days_to_payment rep = Some 0%Q.
Proof.
  destruct (snd (quality_checks Sample.unpaid)) as [rep|] eqn:E;
    [|vm_compute in E; discriminate].
  exists rep. split; [reflexivity|].
  destruct (late_arrival_counts Sample.unpaid rep E) as (_ & _ & Hnone).
  destruct (Hnone eq_refl) as (H7 & _ & Havg). split; assumption.
Defined.

(** ** Rounding keeps a rate between 0 and 1 *)

Section RateBounds.

Local Open Scope Q_scope.






End RateBounds.

(** ** bootstrap_loader.py *)

Section BootstrapProperties.

Context `{Encoders}.

Lemma first_truthy_spec (fields : list string) (record : gmap string pyval) :
  match first_truthy fields record with
  | Some v => exists field, In field fields /\ record !! field = Some v /\ truthy v = true
  | None => forall field, In field fields ->
              match record !! field with
              | Some v => truthy v = false
              | None => True
              end
  end.
Proof.
  induction fields as [|f fields IH]; simpl; [tauto|].
  destruct (record !! f) as [v|] eqn:Ef.
  - destruct (truthy v) eqn:Et.
    + exists f. auto.
    + destruct (first_truthy fields record) as [w|].
      * destruct IH as (field & Hin & Hw). exists field. auto.
      * intros field [<-|Hin]; [rewrite Ef; exact Et | apply IH, Hin].
  - destruct (first_truthy fields record) as [w|].
    + destruct IH as (field & Hin & Hw). exists field. auto.
    + intros field [<-|Hin]; [rewrite Ef; exact I | apply IH, Hin].
Qed.

(** X21. The natural key of a record is the text of an id field of its
    event type that is present and truthy; when every candidate field is
    absent or falsy (null, 0, empty string, false), and for every event
    type without candidates, it is the digest of the whole record. *)
Theorem natural_key_fallback (event_type : string) (record : gmap string pyval) :
  ((forall field, In field (key_map event_type) ->
      match record !! field with
      | Some v => truthy v = false
      | None => True
      end) ->
   extract_natural_key event_type record = md5_json record) /\
  ((exists field v, In field (key_map event_type) /\ record !! field = Some v /\
                    truthy v = true) ->
   exists field v, In field (key_map event_type) /\ record !! field = Some v /\
                   truthy v = true /\ extract_natural_key event_type record = py_str v) /\
  (event_type <> "historical_order" -> event_type <> "historical_payment" ->
   event_type <> "historical_shipment" -> event_type <> "historical_refund" ->
   extract_natural_key event_type record = md5_json record).
Proof.
  pose proof (first_truthy_spec (key_map event_type) record) as Hspec.
  unfold extract_natural_key. split; [|split].
  - intros Hnone. destruct (first_truthy (key_map event_type) record) as [v|]; [|reflexivity].
    destruct Hspec as (field & Hin & Hf & Ht). specialize (Hnone field Hin).
    rewrite Hf in Hnone. congruence.
  - intros (field & v & Hin & Hf & Ht).
    destruct (first_truthy (key_map event_type) record) as [w|].
    + destruct Hspec as (field' & Hin' & Hf' & Ht'). exists field', w. auto.
    + specialize (Hspec field Hin). rewrite Hf in Hspec. congruence.
  - intros H1 H2 H3 H4. unfold key_map.
    rewrite (proj2 (String.eqb_neq _ _) H1), (proj2 (String.eqb_neq _ _) H2),
      (proj2 (String.eqb_neq _ _) H3), (proj2 (String.eqb_neq _ _) H4).
    reflexivity.
Qed.

End BootstrapProperties.

Lemma natural_key_fallback_witness :
  let by_id : gmap string pyval := <["order_id" := VNum 0]> (<["id" := VStr "o-7"]> ∅) in
  let no_id : gmap string pyval := <["order_id" := VStr ""]> (<["total" := VNum 5]> ∅) in
  extract_natural_key (H := StandIn.encoders) "historical_order" by_id = "o-7" /\
  extract_natural_key (H := StandIn.encoders) "historical_order" no_id =
    md5_json (Encoders := StandIn.encoders) no_id.
Proof.
  intros by_id no_id. split; [reflexivity|].
  apply (proj1 (natural_key_fallback (H := StandIn.encoders) "historical_order" no_id)).
  intros field Hin. simpl in Hin.
  destruct Hin as [<-|[<-|[]]]; reflexivity.
Defined.

(** X22. Every order row built from the documents of a bootstrap file
    has a vendor, the text that [extract_vendor] found in its record or
    "unknown": such an order is left out of the daily groups only when its
    [created_at] is missing. *)
Theorem bootstrap_orders_have_vendor `{Coercions} `{Encoders} (event_type : string)
    (records : list (gmap string pyval)) (df : DataFrame order_row) (r : order_row) :
  normalize_orders (map stored_event (bootstrap_documents event_type records)) = Ok df ->
  In r (rows df) ->
  (exists record, In record records /\
     o_vendor r = Some (extract_vendor record) /\
     o_order_id r = get record "order_id" /\
     o_event_id r = Some (make_event_id event_type (extract_natural_key event_type record))) /\
  (has_group r = false <-> o_created_at r = None).
Proof.
  intros Hn Hr.
  destruct (normalize_orders_rows _ _ Hn) as (rs & Hrs & Hrows).
  rewrite Hrows in Hr. apply drop_duplicates_last_In in Hr. rewrite sort_values_In in Hr.
  destruct (mapM_In _ _ _ _ Hrs Hr) as (e & He & Her).
  unfold bootstrap_documents in He. rewrite map_map in He. apply in_map_iff in He.
  destruct He as (record & <- & Hrec).
  unfold order_record, mbind, result_bind in Her.
  destruct (float _); [|discriminate]. injection Her as <-. split.
  - exists record. auto.
  - unfold has_group, order_key. simpl.
    destruct (to_datetime (get record "created_at")); simpl; split; congruence.
Qed.

Lemma bootstrap_orders_have_vendor_witness :
  let record : gmap string pyval :=
    <["order_id" := VStr "A"]> (<["created_at" := VStr "2024-01-01"]> ∅) in
  exists df r,
    normalize_orders (H := Reference.reference)
      (map stored_event
         (bootstrap_documents (H := StandIn.encoders) "historical_order" [record])) = Ok df /\
    rows df = [r] /\ o_vendor r = Some "unknown".
Proof.
  intros record.
  destruct (normalize_orders (H := Reference.reference)
      (map stored_event
         (bootstrap_documents (H := StandIn.encoders) "historical_order" [record])))
    as [df|] eqn:E; [|vm_compute in E; discriminate].
  assert (Hrows : rows df = [mkOrder (VStr "A") VNone 0 VNone (Some Sample.jan1)
                               (Some "sha256(historical_order:A)") (Some "unknown")
                               (Some "historical_order")]).
  { vm_compute in E. injection E as <-. reflexivity. }
  eexists. eexists. split; [reflexivity|]. split; [exact Hrows|].
  destruct (bootstrap_orders_have_vendor (H := Reference.reference) (H0 := StandIn.encoders)
              "historical_order" [record] df _ E
              ltac:(rewrite Hrows; left; reflexivity))
    as ((rec & Hin & Hv & _) & _).
  destruct Hin as [<-|[]]. exact Hv.
Defined.

(** ** live_event_loader.py *)

Section LiveLoaderProperties.

Context {V : Type}.
Context (json_loads : string -> option (gmap string V)).
Context (now : nat -> V).
Context (str_value : string -> V).



Lemma load_lines_ops (all lines : list string) :
  (forall line, In line lines -> In line all) ->
  forall n ops skipped,
  (forall op, In op ops -> upsert_of json_loads now str_value all op) ->
  forall op, In op (fst (load_lines json_loads now str_value lines n ops skipped)) ->
             upsert_of json_loads now str_value all op.
Proof.
  induction lines as [|line lines IH]; intros Hsub n ops skipped Hops; [exact Hops|].
  assert (Hsub' : forall l, In l lines -> In l all) by (intros l Hl; apply Hsub; right; exact Hl).
  cbn [load_lines]. destruct (String.eqb (strip line) ""); [apply IH; assumption|].
  destruct (json_loads (strip line)) as [event|] eqn:Ej; [|apply IH; assumption].
  destruct (event !! "event_id") as [id|] eqn:Eid; [|apply IH; assumption].
  apply IH; [assumption|]. intros op Hop. apply in_app_or in Hop.
  destruct Hop as [Hop|[<-|[]]]; [apply Hops, Hop|].
  exists line, event, n. simpl. repeat split; auto. apply Hsub. left. reflexivity.
Qed.

(** X24. Every upsert of a live events file comes from a line whose
    object has an [event_id]: the upsert is keyed by that id, its document
    carries the same id and the source tag "live_stream", and every other
    field of the object, the payload among them, is stored unchanged. *)
Theorem live_upserts_keep_the_event (lines : list string) (op : update_one) :
  In op (fst (load_live_events json_loads now str_value (Some lines))) ->
  exists line event,
    In line lines /\ json_loads (strip line) = Some event /\
    event !! "event_id" = Some (upd_event_id op) /\
    upd_set op !! "event_id" = Some (upd_event_id op) /\
    upd_set op !! "source" = Some (str_value "live_stream") /\
    (forall k, k <> "source" -> k <> "ingested_at" -> upd_set op !! k = event !! k).
Proof.
  intros Hop. unfold load_live_events in Hop.
  destruct (load_lines_ops lines lines (fun _ Hl => Hl) 0 [] 0%Z (fun _ (Hn : In _ []) =>
              match Hn with end) op Hop) as (line & event & n & Hin & Hj & Hid & Hset).
  exists line, event. rewrite Hset. repeat split; auto.
  - rewrite !lookup_insert_ne by discriminate. exact Hid.
  - apply lookup_insert_eq.
  - intros k Hk1 Hk2. rewrite !lookup_insert_ne by congruence. reflexivity.
Qed.

End LiveLoaderProperties.

Example live_lines_run :
  load_live_events LineFormat.json_loads LineFormat.now id (Some LineFormat.lines) =
  ([ mkUpdate "e1" (<["source" := "live_stream"]>
                      (<["ingested_at" := "t0"]> {[ "event_id" := "e1" ]}));
     mkUpdate "e2" (<["source" := "live_stream"]>
                      (<["ingested_at" := "t4"]> {[ "event_id" := "e2" ]})) ],
   2%Z).
Proof. vm_compute. reflexivity. Qed.

Lemma live_upserts_keep_the_event_witness :
  exists line event,
    In line LineFormat.lines /\ LineFormat.json_loads (strip line) = Some event /\
    event !! "event_id" = Some (upd_event_id LineFormat.second_upsert) /\
    upd_set LineFormat.second_upsert !! "event_id" =
      Some (upd_event_id LineFormat.second_upsert) /\
    upd_set LineFormat.second_upsert !! "source" = Some (id "live_stream") /\
    (forall k, k <> "source" -> k <> "ingested_at" ->
       upd_set LineFormat.second_upsert !! k = event !! k).
Proof.
  apply (live_upserts_keep_the_event LineFormat.json_loads LineFormat.now id
           LineFormat.lines LineFormat.second_upsert).
  vm_compute. right. left. reflexivity.
Defined.
